(** * Straddle pricing: the analytical estimate and the Monte Carlo estimators

    A shallow embedding of [straddle_pricer.py].

    Numbers.  The script computes on binary64 values through Python and
    numpy.  Here a finite value is a real number of [R], so the functions
    are embedded with the exact arithmetic that the float operations
    approximate; the values numpy gives to operations that have no real
    result ([np.sqrt] of a negative number, a division by zero) are kept,
    as [NaN] and [Inf].  The theorems marked C and X are stated so that
    they also hold when the operations round, underflow or overflow: an
    equality is stated only where both sides are computed by the same
    operations in the same order, an order only where rounding keeps it,
    and a call of [int()] only for a product that binary64 can hold
    ([int_defined]).  Where exact arithmetic would promise more than the
    program does, the module [Binary64] computes the same expression on
    primitive floats and shows the difference.  The runs on the concrete
    source are computations in the exact model.

    Randomness.  [np.random.normal] is a call into numpy's global generator.
    It is an interface here ([RandomSource]): a generator state is threaded
    through the calls, a call may raise (numpy rejects a negative scale or a
    negative dimension) and what it returns has the requested shape.
    Nothing else is assumed about the values drawn, so a statement proved
    for every source and every state holds for every realization of the
    draws. *)

From Stdlib Require Import Reals Lra Lia ZArith String Bool List.
From Stdlib Require PrimFloat.
Import ListNotations.
Open Scope R_scope.

(** ** Values and outcomes *)

(** A numpy float64 result under exact arithmetic. *)
Inductive npfloat : Type :=
| Fin (r : R)
| Inf (negative : bool)
| NaN.

(** The exceptions of the model.  [ZeroDivisionError] and [ValueError] are
    Python's own.  [InvalidParameter], with the offending parameter and its
    value, is the error that section 7 of the specification asks for; the
    script defines no such exception and has no [raise] statement. *)
Inductive exn : Type :=
| ZeroDivisionError
| ValueError
| InvalidParameter (param : string) (value : R).

Inductive outcome (A : Type) : Type :=
| Returned (a : A)
| Raised (e : exn).
Arguments Returned {A} a.
Arguments Raised {A} e.

(** A computation that reads and advances a generator state of type [G]
    and either returns a value with the new state or raises. *)
Definition sampler (G A : Type) : Type := G -> outcome (A * G).

Definition ret {G A : Type} (a : A) : sampler G A :=
  fun g => Returned (a, g).

Definition bind {G A B : Type} (c : sampler G A) (k : A -> sampler G B)
  : sampler G B :=
  fun g => match c g with
           | Returned (a, g') => k a g'
           | Raised e => Raised e
           end.

Definition raise {G A : Type} (e : exn) : sampler G A :=
  fun _ => Raised e.

Declare Scope sampler_scope.
Delimit Scope sampler_scope with sampler.
Notation "x <- c ;; k" := (bind c (fun x => k))
  (at level 61, c at next level, right associativity) : sampler_scope.
Open Scope sampler_scope.

(** ** The randomness source *)

(** [normal loc scale n] is [np.random.normal(loc, scale, n)] and
    [normal2d loc scale r c] is [np.random.normal(loc, scale, (r, c))], a
    matrix given by its [r] rows of [c] entries. *)
Class RandomSource : Type := {
  rng : Type;
  normal : R -> R -> Z -> sampler rng (list R);
  normal2d : R -> R -> Z -> Z -> sampler rng (list (list R));
  normal_shape :
    forall loc scale n g xs g',
      normal loc scale n g = Returned (xs, g') ->
      Z.of_nat (length xs) = n;
  normal2d_shape :
    forall loc scale r c g m g',
      normal2d loc scale r c g = Returned (m, g') ->
      Z.of_nat (length m) = r /\
      Forall (fun row => Z.of_nat (length row) = c) m
}.

(** ** Python and numpy operations used by the script *)

(** [int(x)] on a float: truncation toward zero. *)
Definition py_int (x : R) : Z :=
  if Rle_dec 0 x then Int_part x else (- Int_part (- x))%Z.

(** [np.sqrt(x)]: nan (with a warning, no exception) below zero. *)
Definition np_sqrt (x : R) : npfloat :=
  if Rlt_dec x 0 then NaN else Fin (sqrt x).

(** Float multiplication on [npfloat]. *)
Definition np_mul (a b : npfloat) : npfloat :=
  match a, b with
  | NaN, _ | _, NaN => NaN
  | Fin x, Fin y => Fin (x * y)
  | Inf s, Inf s' => Inf (xorb s s')
  | Inf s, Fin y | Fin y, Inf s =>
      if Req_dec_T y 0 then NaN
      else if Rlt_dec y 0 then Inf (negb s) else Inf s
  end.

(** Division of a numpy float by a number: no exception on a zero
    divisor, the result is nan for 0/0 and an infinity otherwise. *)
Definition np_divide (x d : R) : npfloat :=
  if Req_dec_T d 0 then
    if Req_dec_T x 0 then NaN
    else if Rlt_dec x 0 then Inf true else Inf false
  else Fin (x / d).

(** [np.prod] and [.sum()] of a one-dimensional array: a reduction from
    the operation's identity, left to right. *)
Definition np_prod (l : list R) : R := fold_left Rmult l 1.
Definition np_sum (l : list R) : R := fold_left Rplus l 0.

(** [np.mean] of a list: the sum divided by the number of items. *)
Definition np_mean (l : list R) : npfloat :=
  np_divide (np_sum l) (INR (length l)).

Fixpoint zip_with {A B C : Type} (f : A -> B -> C) (l : list A) (l' : list B)
  : list C :=
  match l, l' with
  | a :: t, b :: t' => f a b :: zip_with f t t'
  | _, _ => []
  end.

(** [m.prod(axis=0)] of a matrix with [ncols] columns: the product down
    each column, accumulated row after row from a row of ones. *)
Definition prod_axis0 (ncols : nat) (rows : list (list R)) : list R :=
  fold_left (zip_with Rmult) rows (repeat 1 ncols).

(** [Series.cumprod()]: the running product, the first item unchanged. *)
Fixpoint cumprod_from (prev : R) (l : list R) : list R :=
  match l with
  | [] => []
  | x :: t => prev * x :: cumprod_from (prev * x) t
  end.

Definition cumprod (l : list R) : list R :=
  match l with
  | [] => []
  | x :: t => x :: cumprod_from x t
  end.

(** The [DataFrame] built by [simulate_asset_path], by its two columns. *)
Record DataFrame : Type := {
  col_return : list R;
  col_price : list R
}.

(** ** The functions of the script *)

(** [straddle_price(an_vol, time)]. *)
Definition straddle_price (an_vol time : R) : npfloat :=
  np_mul (Fin ((2 / Rpower (2 * PI) 0.5) * an_vol)) (np_sqrt time).

Section Estimators.

Context {RS : RandomSource}.

(** The [for _ in range(mc_paths)] loop of [straddle_pricer_mc], with
    [k] iterations left and the running [result_sum]. *)
Fixpoint mc_loop (k : nat) (daily_vol : R) (n_days : Z) (result_sum : R)
  : sampler rng R :=
  match k with
  | O => ret result_sum
  | S k' =>
      returns <- normal 0 daily_vol n_days ;;
      mc_loop k' daily_vol n_days
        (result_sum + Rabs (np_prod (map (fun r => 1 + r) returns) - 1))
  end.

(** [straddle_pricer_mc(an_vol, time, mc_paths)].  When [mc_paths] is 0
    the loop body never runs, [result_sum] is still the integer 0 and the
    final division is an integer division by zero. *)
Definition straddle_pricer_mc (an_vol time : R) (mc_paths : Z)
  : sampler rng R :=
  let daily_vol := an_vol / sqrt 252 in
  let n_days := py_int (time * 252) in
  result_sum <- mc_loop (Z.to_nat mc_paths) daily_vol n_days 0 ;;
  if (mc_paths =? 0)%Z then raise ZeroDivisionError
  else ret (result_sum / IZR mc_paths).

(** One batch of [five_prices]: the matrix drawn and the price from it. *)
Definition batch_price (mc_paths : Z) (data : list (list R)) : npfloat :=
  np_divide
    (np_sum
       (map (fun p => Rabs (p - 1))
          (prod_axis0 (Z.to_nat mc_paths)
             (map (map (fun x => x + 1)) data))))
    (IZR mc_paths).

(** The [for _ in range(5)] loop of [five_prices]. *)
Fixpoint five_loop (k : nat) (daily_vol : R) (n_days mc_paths : Z)
  (results : list npfloat) : sampler rng (list npfloat) :=
  match k with
  | O => ret results
  | S k' =>
      data <- normal2d 0 daily_vol n_days mc_paths ;;
      five_loop k' daily_vol n_days mc_paths
        (results ++ [batch_price mc_paths data])
  end.

(** [five_prices(an_vol, time, mc_paths)]. *)
Definition five_prices (an_vol time : R) (mc_paths : Z)
  : sampler rng (list npfloat) :=
  let daily_vol := an_vol / sqrt 252 in
  let n_days := py_int (time * 252) in
  five_loop 5 daily_vol n_days mc_paths [].

(** [simulate_asset_path(an_vol, time)]. *)
Definition simulate_asset_path (an_vol time : R)
  : sampler rng (DataFrame * R) :=
  let daily_vol := an_vol / sqrt 252 in
  let n_days := py_int (time * 252) in
  returns <- normal 0 daily_vol n_days ;;
  let straddle_return :=
    Rabs (np_prod (map (fun r => 1 + r) returns) - 1) in
  let col := map (fun r => r + 1) returns in
  ret ({| col_return := col; col_price := cumprod col |}, straddle_return).

End Estimators.

(** Step 5 of the script body:
    [np.mean([straddle_return for _ in range(mc_paths)])]. *)
Definition mc_avg (straddle_return : R) (mc_paths : Z) : npfloat :=
  np_mean (repeat straddle_return (Z.to_nat mc_paths)).

(** ** A concrete randomness source

    A deterministic source for running the functions: the state counts the
    variates consumed so far and the [i]-th standard variate is [+1] or
    [-1] by the parity of [i].  A draw is [loc + scale * variate]; as numpy
    does, the source raises [ValueError] on a negative scale or a negative
    dimension, and it fills a matrix row by row. *)

Definition trial_variate (i : nat) : R :=
  if Nat.even i then 1 else -1.

Definition trial_row (loc scale : R) (start len : nat) : list R :=
  map (fun i => loc + scale * trial_variate i) (seq start len).

Definition trial_normal (loc scale : R) (n : Z) : sampler nat (list R) :=
  fun g =>
    if Rlt_dec scale 0 then Raised ValueError
    else if (n <? 0)%Z then Raised ValueError
    else Returned (trial_row loc scale g (Z.to_nat n), (g + Z.to_nat n)%nat).

Definition trial_normal2d (loc scale : R) (r c : Z)
  : sampler nat (list (list R)) :=
  fun g =>
    if Rlt_dec scale 0 then Raised ValueError
    else if ((r <? 0) || (c <? 0))%Z then Raised ValueError
    else Returned
           (map (fun i => trial_row loc scale (g + i * Z.to_nat c) (Z.to_nat c))
              (seq 0 (Z.to_nat r)),
            (g + Z.to_nat r * Z.to_nat c)%nat).

Definition trial_source : RandomSource.
Proof.
  refine {| rng := nat; normal := trial_normal; normal2d := trial_normal2d |}.
  - intros loc scale n g xs g'. unfold trial_normal.
    destruct (Rlt_dec scale 0); [discriminate|].
    destruct (Z.ltb_spec n 0); [discriminate|].
    intros E. injection E as <- _.
    unfold trial_row. rewrite length_map, length_seq. lia.
  - intros loc scale r c g m g'. unfold trial_normal2d.
    destruct (Rlt_dec scale 0); [discriminate|].
    destruct (Z.ltb_spec r 0); [discriminate|].
    destruct (Z.ltb_spec c 0); [discriminate|].
    simpl. intros E. injection E as <- _. split.
    + rewrite length_map, length_seq. lia.
    + apply Forall_forall. intros row Hin.
      apply in_map_iff in Hin. destruct Hin as (i & <- & _).
      unfold trial_row. rewrite length_map, length_seq. lia.
Defined.

(** A source that rejects every request, as numpy rejects a negative
    scale or a negative dimension. *)
Definition refusing_source : RandomSource.
Proof.
  refine {| rng := unit;
            normal := fun _ _ _ _ => Raised ValueError;
            normal2d := fun _ _ _ _ _ => Raised ValueError |}.
  - intros loc scale n g xs g' E. discriminate E.
  - intros loc scale r c g m g' E. discriminate E.
Defined.

(** ** Notions the statements are written with *)

(** [k] is the floor of [x]. *)
Definition is_floor (x : R) (k : Z) : Prop :=
  IZR k <= x < IZR k + 1.

(** The product and the sum of a list of numbers, and the arithmetic mean
    of a list that is not empty. *)
Definition product (l : list R) : R := fold_right Rmult 1 l.
Definition total (l : list R) : R := fold_right Rplus 0 l.
Definition arithmetic_mean (l : list R) : R := total l / INR (length l).

(** The straddle return of one path of daily returns:
    the distance to 1 of the product of the factors [1 + daily_return]. *)
Definition path_straddle_return (returns : list R) : R :=
  Rabs (product (map (fun r => 1 + r) returns) - 1).

(** Column [j] of a matrix given by its rows, and its columns. *)
Definition column (j : nat) (rows : list (list R)) : list R :=
  map (fun row => nth j row 0) rows.

Definition columns (ncols : nat) (rows : list (list R)) : list (list R) :=
  map (fun j => column j rows) (seq 0 ncols).

(** The final value of a cumulative product; the empty product 1 when
    there is no day at all. *)
Definition final_cumprod (factors : list R) : R :=
  last (cumprod factors) 1.

(** The straddle return of one column of a matrix of draws. *)
Definition column_straddle_return (draws : list R) : R :=
  Rabs (final_cumprod (map (fun x => 1 + x) draws) - 1).

(** A value that is a finite number and not below zero. *)
Definition np_nonneg (p : npfloat) : Prop :=
  match p with
  | Fin v => 0 <= v
  | Inf negative => negative = false
  | NaN => False
  end.

(** Strict order on numpy floats; nothing compares with nan. *)
Definition np_lt (a b : npfloat) : Prop :=
  match a, b with
  | Fin x, Fin y => x < y
  | Fin _, Inf false => True
  | Inf true, Fin _ => True
  | Inf true, Inf false => True
  | _, _ => False
  end.

(** A value that is a number, or minus infinity, and not above zero. *)
Definition np_nonpos (p : npfloat) : Prop :=
  match p with
  | Fin v => v <= 0
  | Inf negative => negative = true
  | NaN => False
  end.

(** Order on numpy floats; nothing compares with nan. *)
Definition np_le (a b : npfloat) : Prop :=
  match a, b with
  | Fin x, Fin y => x <= y
  | NaN, _ | _, NaN => False
  | Inf true, _ => True
  | _, Inf false => True
  | _, _ => False
  end.

(** The largest finite binary64 value. *)
Definition float64_max : R := (2 - / 2 ^ 52) * 2 ^ 1023.

(** [int(x)] returns: the float [x] is finite.  A product beyond the
    binary64 range is an infinity, on which [int()] raises
    [OverflowError]; that exception is not modelled, and the statements
    that need [int()] to return carry this condition. *)
Definition int_defined (x : R) : Prop := Rabs x <= float64_max.

(** An operation that fails with the specification's [InvalidParameter]. *)
Definition fails_with_InvalidParameter {A : Type} (o : outcome A) : Prop :=
  exists param value, o = Raised (InvalidParameter param value).

Section Realizations.

Context {RS : RandomSource}.

(** The draws of [k] successive paths, in the order they are generated. *)
Fixpoint draw_paths (k : nat) (scale : R) (n_days : Z)
  : sampler rng (list (list R)) :=
  match k with
  | O => ret []
  | S k' =>
      p <- normal 0 scale n_days ;;
      ps <- draw_paths k' scale n_days ;;
      ret (p :: ps)
  end.

(** The matrices of [k] successive batches, in the order they are
    generated. *)
Fixpoint draw_batches (k : nat) (scale : R) (n_days mc_paths : Z)
  : sampler rng (list (list (list R))) :=
  match k with
  | O => ret []
  | S k' =>
      m <- normal2d 0 scale n_days mc_paths ;;
      ms <- draw_batches k' scale n_days mc_paths ;;
      ret (m :: ms)
  end.

End Realizations.

(** ** The script body

    Steps 1 to 6 of the statements that follow the functions, without the
    printing and the plotting: the calls with their default arguments, the
    average of the fixed return, and the table of simulated prices. *)

(** [DataFrame.cumprod()] of a table given by its rows: the running
    product down each column, the first row unchanged. *)
Fixpoint cumprod_axis0_from (prev : list R) (rows : list (list R))
  : list (list R) :=
  match rows with
  | [] => []
  | row :: t =>
      zip_with Rmult prev row :: cumprod_axis0_from (zip_with Rmult prev row) t
  end.

Definition cumprod_axis0 (rows : list (list R)) : list (list R) :=
  match rows with
  | [] => []
  | row :: t => row :: cumprod_axis0_from row t
  end.

(** The values the script body binds. *)
Record ScriptValues : Type := {
  analytical_price : npfloat;
  mc_price : R;
  five_estimates : list npfloat;
  simulated_asset : DataFrame;
  straddle_return : R;
  mc_avg_value : npfloat;
  simulated_matrix : list (list R);
  simulated_prices : list (list R)
}.

Section ScriptBody.

Context {RS : RandomSource}.

Definition script_body : sampler rng ScriptValues :=
  let analytical := straddle_price 0.2 1 in
  mc <- straddle_pricer_mc 0.2 1 100 ;;
  five <- five_prices 0.2 1 10000 ;;
  path <- simulate_asset_path 0.2 1 ;;
  let mc_paths := 100%Z in
  let avg := mc_avg (snd path) mc_paths in
  let n_days := 252%Z in
  matrix <- normal2d 0 (0.2 / sqrt 252) n_days 4 ;;
  ret {| analytical_price := analytical;
         mc_price := mc;
         five_estimates := five;
         simulated_asset := fst path;
         straddle_return := snd path;
         mc_avg_value := avg;
         simulated_matrix := matrix;
         simulated_prices :=
           cumprod_axis0 (map (map (fun x => 1 + x)) matrix) |}.

End ScriptBody.

(** ** The same expressions on binary64

    Primitive floats are IEEE 754 binary64 with rounding to nearest even,
    the arithmetic of Python's [float] and of numpy's [float64]. *)

Module Binary64.

Import PrimFloat.
Local Open Scope float_scope.

(** [np.pi]. *)
Definition pi : float := 0x1.921fb54442d18p+1.

(** [x ** 0.5], computed as the correctly rounded square root. *)
Definition pow_half (x : float) : float := sqrt x.

(** [straddle_price(an_vol, time)]. *)
Definition straddle_price (an_vol time : float) : float :=
  (2 / pow_half (2 * pi)) * an_vol * sqrt time.

(** The sum of a list, from [0.0], left to right. *)
Definition np_sum (l : list float) : float := fold_left add l 0.

(** The number of items of a list, as a float. *)
Definition count (l : list float) : float :=
  fold_left (fun c _ => c + 1) l 0.

(** [np.mean] of a list: the sum divided by the number of items. *)
Definition np_mean (l : list float) : float := np_sum l / count l.

(** [np.mean([straddle_return for _ in range(mc_paths)])]. *)
Definition mc_avg (straddle_return : float) (mc_paths : nat) : float :=
  np_mean (repeat straddle_return mc_paths).

(** The doubles nearest to 0.1 and to 0.2, the double 1.0 and the next
    double after it, 1.0000000000000002. *)
Definition tenth : float := 0x1.999999999999ap-4.
Definition fifth : float := 0x1.999999999999ap-3.
Definition one : float := 1.
Definition after_one : float := 0x1.0000000000001p+0.

Definition lt (x y : float) : bool := ltb x y.
Definition eq (x y : float) : bool := eqb x y.

End Binary64.

(** ** Arithmetic of the reductions *)

Lemma fold_left_Rmult_product (l : list R) (a : R) :
  fold_left Rmult l a = a * product l.
Proof.
  revert a. induction l as [|x l IH]; intros a; simpl.
  - lra.
  - rewrite IH. unfold product. lra.
Qed.

Lemma np_prod_product (l : list R) : np_prod l = product l.
Proof. unfold np_prod. rewrite fold_left_Rmult_product. lra. Qed.

Lemma fold_left_Rplus_total (l : list R) (a : R) :
  fold_left Rplus l a = a + total l.
Proof.
  revert a. induction l as [|x l IH]; intros a; simpl.
  - lra.
  - rewrite IH. unfold total. lra.
Qed.

Lemma np_sum_total (l : list R) : np_sum l = total l.
Proof. unfold np_sum. rewrite fold_left_Rplus_total. lra. Qed.

Lemma total_app (l l' : list R) : total (l ++ l') = total l + total l'.
Proof.
  induction l as [|x l IH]; simpl.
  - lra.
  - fold (total (l ++ l')). fold (total l). rewrite IH. lra.
Qed.

Lemma total_nonneg (l : list R) :
  Forall (fun x => 0 <= x) l -> 0 <= total l.
Proof.
  induction 1 as [|x l Hx _ IH]; simpl.
  - lra.
  - fold (total l). lra.
Qed.

Lemma total_repeat (x : R) (k : nat) : total (repeat x k) = INR k * x.
Proof.
  induction k as [|k IH].
  - simpl. lra.
  - rewrite S_INR. simpl. fold (total (repeat x k)). rewrite IH. lra.
Qed.

(** ** [int()] on a float that is not negative is the floor *)

Lemma py_int_floor (x : R) : 0 <= x -> is_floor x (py_int x).
Proof.
  intros Hx. unfold py_int, is_floor.
  destruct (Rle_dec 0 x) as [_|C]; [|contradiction].
  destruct (base_Int_part x) as [Hle Hgt]. lra.
Qed.

Lemma is_floor_unique (x : R) (k k' : Z) :
  is_floor x k -> is_floor x k' -> k = k'.
Proof.
  unfold is_floor. intros [H1 H2] [H3 H4].
  assert (Hlt : (k < k' + 1)%Z) by (apply lt_IZR; rewrite plus_IZR; lra).
  assert (Hlt' : (k' < k + 1)%Z) by (apply lt_IZR; rewrite plus_IZR; lra).
  lia.
Qed.

Lemma py_int_unique (x : R) (k : Z) :
  0 <= x -> is_floor x k -> py_int x = k.
Proof.
  intros Hx Hk. apply (is_floor_unique x); [apply py_int_floor|]; assumption.
Qed.

(** ** The running product *)

Lemma length_cumprod_from (prev : R) (l : list R) :
  length (cumprod_from prev l) = length l.
Proof.
  revert prev. induction l as [|x l IH]; intros prev; simpl; [|rewrite IH];
    reflexivity.
Qed.

Lemma length_cumprod (l : list R) : length (cumprod l) = length l.
Proof.
  destruct l as [|x l]; simpl; [|rewrite length_cumprod_from]; reflexivity.
Qed.

Lemma last_cumprod_from (prev : R) (l : list R) (d : R) :
  last (prev :: cumprod_from prev l) d = prev * product l.
Proof.
  revert prev. induction l as [|x l IH]; intros prev.
  - simpl. lra.
  - change (last (prev :: cumprod_from prev (x :: l)) d)
      with (last (prev * x :: cumprod_from (prev * x) l) d).
    rewrite IH. simpl. fold (product l). lra.
Qed.

Lemma last_cumprod (l : list R) (d : R) :
  l <> [] -> last (cumprod l) d = product l.
Proof.
  destruct l as [|x l]; [congruence|]. intros _.
  unfold cumprod. rewrite last_cumprod_from. reflexivity.
Qed.

Lemma final_cumprod_product (l : list R) : final_cumprod l = product l.
Proof.
  unfold final_cumprod. destruct l as [|x l].
  - reflexivity.
  - apply last_cumprod. discriminate.
Qed.

Lemma hd_error_cumprod (l : list R) : hd_error (cumprod l) = hd_error l.
Proof. destruct l; reflexivity. Qed.

Lemma path_straddle_return_nonneg (returns : list R) :
  0 <= path_straddle_return returns.
Proof. apply Rabs_pos. Qed.

Lemma path_straddle_return_nil : path_straddle_return [] = 0.
Proof.
  unfold path_straddle_return. simpl.
  replace (1 - 1) with 0 by lra. apply Rabs_R0.
Qed.

(** ** The analytical estimate, [straddle_price] *)

Lemma Rpower_half_sqrt (x : R) : 0 < x -> Rpower x 0.5 = sqrt x.
Proof.
  intros Hx. replace 0.5 with (/ 2) by lra. apply Rpower_sqrt. exact Hx.
Qed.

Lemma two_PI_pos : 0 < 2 * PI.
Proof. pose proof PI_RGT_0. lra. Qed.

Lemma straddle_coefficient_pos : 0 < 2 / Rpower (2 * PI) 0.5.
Proof.
  rewrite Rpower_half_sqrt by apply two_PI_pos.
  apply Rdiv_lt_0_compat; [lra|]. apply sqrt_lt_R0, two_PI_pos.
Qed.

Lemma straddle_price_value (sigma t : R) :
  0 <= t ->
  straddle_price sigma t = Fin (2 / Rpower (2 * PI) 0.5 * sigma * sqrt t).
Proof.
  intros Ht. unfold straddle_price, np_sqrt.
  destruct (Rlt_dec t 0) as [C|_]; [lra|]. reflexivity.
Qed.

Lemma straddle_price_negative_time (sigma t : R) :
  t < 0 -> straddle_price sigma t = NaN.
Proof.
  intros Ht. unfold straddle_price, np_sqrt.
  destruct (Rlt_dec t 0) as [_|C]; [reflexivity|contradiction].
Qed.

(** C2.  [straddle_price] takes no generator state: it is a function of
    [sigma] and [t] alone.  For every [sigma] and every [t >= 0] it
    returns exactly [(2 / sqrt (2 * pi)) * sigma * sqrt t]; for [t < 0],
    where the square root has no real value, it returns the nan that
    [np.sqrt] gives. *)
Theorem straddle_price_closed_form (sigma t : R) :
  (0 <= t ->
   straddle_price sigma t = Fin (2 / sqrt (2 * PI) * sigma * sqrt t)) /\
  (t < 0 -> straddle_price sigma t = NaN).
Proof.
  split.
  - intros Ht. rewrite straddle_price_value by exact Ht.
    rewrite Rpower_half_sqrt by apply two_PI_pos. reflexivity.
  - apply straddle_price_negative_time.
Qed.

Lemma straddle_price_closed_form_witness :
  straddle_price 0.2 1 = Fin (2 / sqrt (2 * PI) * 0.2 * sqrt 1) /\
  straddle_price 0.2 (-1) = NaN.
Proof.
  split.
  - apply (proj1 (straddle_price_closed_form 0.2 1)). lra.
  - apply (proj2 (straddle_price_closed_form 0.2 (-1))). lra.
Defined.

(** A run against C7 as stated: in binary64 the horizons 1.0 and
    1.0000000000000002 have the same square root 1.0, so the volatility
    0.2 has the same price at both; the price is not strictly increasing
    in the horizon. *)
Lemma straddle_price_ties_in_binary64 :
  Binary64.lt Binary64.one Binary64.after_one = true /\
  Binary64.straddle_price Binary64.fifth Binary64.one =
  Binary64.straddle_price Binary64.fifth Binary64.after_one.
Proof. split; vm_compute; reflexivity. Qed.

(** C7, amended.  For [sigma > 0] and [t > 0], [straddle_price] is
    non-decreasing in [sigma] with [t] fixed, and non-decreasing in [t]
    (and so in [sqrt t]) with [sigma] fixed. *)
Theorem straddle_price_nondecreasing :
  (forall sigma1 sigma2 t,
      0 < sigma1 -> sigma1 <= sigma2 -> 0 < t ->
      np_le (straddle_price sigma1 t) (straddle_price sigma2 t)) /\
  (forall sigma t1 t2,
      0 < sigma -> 0 < t1 -> t1 <= t2 ->
      sqrt t1 <= sqrt t2 /\
      np_le (straddle_price sigma t1) (straddle_price sigma t2)).
Proof.
  pose proof straddle_coefficient_pos as Hc. split.
  - intros sigma1 sigma2 t H1 H12 Ht.
    rewrite !straddle_price_value by lra. simpl.
    pose proof (sqrt_pos t) as Hs.
    apply Rmult_le_compat_r; [exact Hs|].
    apply Rmult_le_compat_l; lra.
  - intros sigma t1 t2 Hs H1 H12.
    assert (Hsq : sqrt t1 <= sqrt t2) by (apply sqrt_le_1; lra).
    split; [exact Hsq|].
    rewrite !straddle_price_value by lra. simpl.
    apply Rmult_le_compat_l; [|exact Hsq].
    apply Rmult_le_pos; lra.
Qed.

Lemma straddle_price_nondecreasing_witness :
  np_le (straddle_price 0.2 1) (straddle_price 0.3 1) /\
  sqrt 1 <= sqrt 2 /\
  np_le (straddle_price 0.2 1) (straddle_price 0.2 2).
Proof.
  split.
  - apply (proj1 straddle_price_nondecreasing 0.2 0.3 1); lra.
  - apply (proj2 straddle_price_nondecreasing 0.2 1 2); lra.
Defined.

(** ** The Monte Carlo estimator, [straddle_pricer_mc] *)

Section PathLoop.

Context {RS : RandomSource}.

(** The loop adds to [result_sum] the straddle returns of the paths it
    draws, and an exception of the generator leaves the loop. *)
Lemma mc_loop_draw_paths (k : nat) (daily_vol : R) (n_days : Z) :
  forall (result_sum : R) (g : rng),
    mc_loop k daily_vol n_days result_sum g =
    match draw_paths k daily_vol n_days g with
    | Returned (paths, g') =>
        Returned (result_sum + total (map path_straddle_return paths), g')
    | Raised e => Raised e
    end.
Proof.
  induction k as [|k IH]; intros result_sum g.
  - simpl. unfold ret. f_equal. f_equal. simpl. lra.
  - simpl. unfold bind.
    destruct (normal 0 daily_vol n_days g) as [[p g1]|e]; [|reflexivity].
    rewrite IH.
    destruct (draw_paths k daily_vol n_days g1) as [[ps g2]|e];
      [|reflexivity].
    unfold ret. f_equal. f_equal. simpl.
    fold (total (map path_straddle_return ps)).
    unfold path_straddle_return at 2. rewrite np_prod_product. lra.
Qed.

Lemma draw_paths_shape (k : nat) (scale : R) (n_days : Z) :
  forall (g : rng) (paths : list (list R)) (g' : rng),
    draw_paths k scale n_days g = Returned (paths, g') ->
    length paths = k /\
    Forall (fun p => Z.of_nat (length p) = n_days) paths.
Proof.
  induction k as [|k IH]; intros g paths g'; simpl.
  - unfold ret. intros E. injection E as <- _. split; constructor.
  - unfold bind.
    destruct (normal 0 scale n_days g) as [[p g1]|e] eqn:Ep; [|discriminate].
    destruct (draw_paths k scale n_days g1) as [[ps g2]|e] eqn:Eps;
      [|discriminate].
    unfold ret. intros E. injection E as <- _.
    destruct (IH _ _ _ Eps) as [Hlen Hall]. split.
    + simpl. congruence.
    + constructor; [|exact Hall]. exact (normal_shape _ _ _ _ _ _ Ep).
Qed.

(** With no day in a path, every path is empty and contributes 0. *)
Lemma total_straddle_returns_no_day (paths : list (list R)) :
  Forall (fun p => Z.of_nat (length p) = 0%Z) paths ->
  total (map path_straddle_return paths) = 0.
Proof.
  induction 1 as [|p ps Hp _ IH]; simpl.
  - reflexivity.
  - fold (total (map path_straddle_return ps)). rewrite IH.
    destruct p as [|x p]; [|simpl in Hp; lia].
    rewrite path_straddle_return_nil. lra.
Qed.

Lemma straddle_pricer_mc_unfold (an_vol time : R) (mc_paths : Z) (g : rng) :
  straddle_pricer_mc an_vol time mc_paths g =
  match draw_paths (Z.to_nat mc_paths) (an_vol / sqrt 252)
          (py_int (time * 252)) g with
  | Returned (paths, g') =>
      if (mc_paths =? 0)%Z then Raised ZeroDivisionError
      else Returned
             (total (map path_straddle_return paths) / IZR mc_paths, g')
  | Raised e => Raised e
  end.
Proof.
  unfold straddle_pricer_mc, bind. rewrite mc_loop_draw_paths.
  destruct (draw_paths _ _ _ g) as [[paths g']|e]; [|reflexivity].
  destruct (mc_paths =? 0)%Z; [reflexivity|].
  unfold ret. f_equal. f_equal. lra.
Qed.

End PathLoop.

(** C1.  For every volatility [sigma], every horizon [t > 0] and every
    path count [n_paths >= 1], the day count [n_days] of
    [straddle_pricer_mc] is the floor of [t * 252] and, whatever the state
    of the generator: when the generator yields the draws of the [n_paths]
    paths, requested with mean 0 and standard deviation
    [sigma / sqrt 252], there are [n_paths] paths of [n_days] draws each
    and the function returns the arithmetic mean of their straddle returns
    [|product of (1 + daily_return) - 1|]; when the generator raises, so
    does the function. *)
Theorem straddle_pricer_mc_mean {RS : RandomSource}
  (sigma t : R) (n_paths : Z) :
  0 < t -> (1 <= n_paths)%Z ->
  let daily_vol := sigma / sqrt 252 in
  let n_days := py_int (t * 252) in
  is_floor (t * 252) n_days /\
  forall g : rng,
    match draw_paths (Z.to_nat n_paths) daily_vol n_days g with
    | Returned (paths, g') =>
        Z.of_nat (length paths) = n_paths /\
        Forall (fun p => Z.of_nat (length p) = n_days) paths /\
        straddle_pricer_mc sigma t n_paths g =
        Returned (arithmetic_mean (map path_straddle_return paths), g')
    | Raised e => straddle_pricer_mc sigma t n_paths g = Raised e
    end.
Proof.
  intros Ht Hn daily_vol n_days. split.
  - apply py_int_floor. lra.
  - intros g. rewrite straddle_pricer_mc_unfold.
    fold daily_vol. fold n_days.
    destruct (draw_paths (Z.to_nat n_paths) daily_vol n_days g)
      as [[paths g']|e] eqn:E; [|reflexivity].
    destruct (draw_paths_shape _ _ _ _ _ _ E) as [Hlen Hall].
    split; [lia|]. split; [exact Hall|].
    destruct (Z.eqb_spec n_paths 0) as [H0|_]; [lia|].
    unfold arithmetic_mean. rewrite length_map, Hlen, INR_IZR_INZ.
    rewrite Z2Nat.id by lia. reflexivity.
Qed.

Lemma straddle_pricer_mc_mean_witness :
  let sigma := 0.2 in
  let t := 1 in
  let n_paths := 100%Z in
  is_floor (t * 252) (py_int (t * 252)) /\
  forall g : nat,
    match draw_paths (RS := trial_source) (Z.to_nat n_paths)
            (sigma / sqrt 252) (py_int (t * 252)) g with
    | Returned (paths, g') =>
        Z.of_nat (length paths) = n_paths /\
        Forall (fun p => Z.of_nat (length p) = py_int (t * 252)) paths /\
        straddle_pricer_mc (RS := trial_source) sigma t n_paths g =
        Returned (arithmetic_mean (map path_straddle_return paths), g')
    | Raised e =>
        straddle_pricer_mc (RS := trial_source) sigma t n_paths g = Raised e
    end.
Proof.
  intros sigma t n_paths.
  apply (straddle_pricer_mc_mean (RS := trial_source) sigma t n_paths).
  - unfold t. lra.
  - unfold n_paths. lia.
Defined.

Lemma draw_paths_returns {RS : RandomSource} (scale : R) (n_days : Z) :
  (forall g0, exists xs g1, normal 0 scale n_days g0 = Returned (xs, g1)) ->
  forall (k : nat) (g : rng),
  exists ps g', draw_paths k scale n_days g = Returned (ps, g').
Proof.
  intros Hacc. induction k as [|k IH]; intros g; simpl.
  - eexists _, _. reflexivity.
  - unfold bind. destruct (Hacc g) as (xs & g1 & E). rewrite E.
    destruct (IH g1) as (ps & g' & Eps). rewrite Eps.
    eexists _, _. reflexivity.
Qed.

(** C9, amended.  For every [sigma] and every [t] with [0 < t < 1/252]
    the day count is 0 and, for every [mc_paths >= 1] and every generator
    state: [straddle_pricer_mc] returns exactly 0 when the generator
    returns the (empty) paths, whatever it returns, and an exception of
    the generator is raised by the function; so it returns exactly 0
    whenever the generator accepts a request of no draw with the standard
    deviation [sigma / sqrt 252]. *)
Theorem straddle_pricer_mc_no_day {RS : RandomSource}
  (sigma t : R) (mc_paths : Z) (g : rng) :
  0 < t -> t < 1 / 252 -> (1 <= mc_paths)%Z ->
  py_int (t * 252) = 0%Z /\
  match draw_paths (Z.to_nat mc_paths) (sigma / sqrt 252) 0 g with
  | Returned (_, g') =>
      straddle_pricer_mc sigma t mc_paths g = Returned (0, g')
  | Raised e => straddle_pricer_mc sigma t mc_paths g = Raised e
  end /\
  ((forall g0, exists xs g1,
       normal 0 (sigma / sqrt 252) 0 g0 = Returned (xs, g1)) ->
   exists g', straddle_pricer_mc sigma t mc_paths g = Returned (0, g')).
Proof.
  intros Ht Ht' Hn.
  assert (H0 : py_int (t * 252) = 0%Z).
  { apply py_int_unique; [lra|]. unfold is_floor. simpl. lra. }
  assert (Hrun :
    match draw_paths (Z.to_nat mc_paths) (sigma / sqrt 252) 0 g with
    | Returned (_, g') =>
        straddle_pricer_mc sigma t mc_paths g = Returned (0, g')
    | Raised e => straddle_pricer_mc sigma t mc_paths g = Raised e
    end).
  { rewrite straddle_pricer_mc_unfold, H0.
    destruct (draw_paths (Z.to_nat mc_paths) (sigma / sqrt 252) 0 g)
      as [[paths g']|e] eqn:E; [|reflexivity].
    destruct (draw_paths_shape _ _ _ _ _ _ E) as [_ Hall].
    destruct (Z.eqb_spec mc_paths 0) as [C|_]; [lia|].
    rewrite total_straddle_returns_no_day by exact Hall.
    f_equal. f_equal. unfold Rdiv. lra. }
  split; [exact H0|]. split; [exact Hrun|].
  intros Hacc.
  destruct (draw_paths_returns _ _ Hacc (Z.to_nat mc_paths) g)
    as (ps & g' & E).
  rewrite E in Hrun. exists g'. exact Hrun.
Qed.

(** C3.  From the same generator state, so that both consume the same
    draws, [straddle_pricer_mc] with [mc_paths = 1] returns exactly the
    [straddle_return] that [simulate_asset_path] returns for the same
    [sigma] and [t], leaves the generator in the same state, and raises
    exactly when [simulate_asset_path] does. *)
Theorem straddle_pricer_mc_one_path_agrees {RS : RandomSource}
  (sigma t : R) (g : rng) :
  straddle_pricer_mc sigma t 1 g =
  match simulate_asset_path sigma t g with
  | Returned ((_, straddle_return), g') => Returned (straddle_return, g')
  | Raised e => Raised e
  end.
Proof.
  unfold straddle_pricer_mc, simulate_asset_path. simpl. unfold bind.
  destruct (normal 0 (sigma / sqrt 252) (py_int (t * 252)) g)
    as [[returns g']|e]; [|reflexivity].
  unfold ret. simpl. f_equal. f_equal. lra.
Qed.

(** ** The single path, [simulate_asset_path] *)

(** C4.  For every [sigma] and every [t > 0], with [n_days] the floor of
    [t * 252]: when the generator yields the daily returns,
    [simulate_asset_path] returns a frame and a scalar such that the price
    series has length [n_days], its first value is 1 plus the first daily
    return, and the distance to 1 of its last value is exactly the scalar
    (a series with no day has neither value, and the scalar is then 0);
    when the generator raises, so does the function. *)
Theorem simulate_asset_path_series {RS : RandomSource}
  (sigma t : R) (g : rng) :
  0 < t ->
  let n_days := py_int (t * 252) in
  is_floor (t * 252) n_days /\
  match normal 0 (sigma / sqrt 252) n_days g with
  | Returned (returns, g') =>
      exists df straddle_return,
        simulate_asset_path sigma t g = Returned ((df, straddle_return), g') /\
        Z.of_nat (length (col_price df)) = n_days /\
        hd_error (col_price df) =
          option_map (fun r => 1 + r) (hd_error returns) /\
        (col_price df <> [] ->
         forall d, Rabs (last (col_price df) d - 1) = straddle_return) /\
        (col_price df = [] -> straddle_return = 0)
  | Raised e => simulate_asset_path sigma t g = Raised e
  end.
Proof.
  intros Ht n_days. split; [apply py_int_floor; lra|].
  unfold simulate_asset_path, bind. fold n_days.
  destruct (normal 0 (sigma / sqrt 252) n_days g) as [[returns g']|e] eqn:E;
    [|reflexivity].
  eexists _, _. split; [reflexivity|]. simpl.
  pose proof (normal_shape _ _ _ _ _ _ E) as Hlen.
  assert (Hfac : map (fun r => r + 1) returns = map (fun r => 1 + r) returns)
    by (apply map_ext; intros; lra).
  rewrite Hfac, np_prod_product. repeat split.
  - rewrite length_cumprod, length_map. exact Hlen.
  - rewrite hd_error_cumprod. destruct returns; reflexivity.
  - intros Hne d. rewrite last_cumprod; [reflexivity|].
    intros Hnil. apply Hne. rewrite Hnil. reflexivity.
  - intros Hnil. destruct returns as [|x l]; [|discriminate].
    exact path_straddle_return_nil.
Qed.

Lemma simulate_asset_path_series_witness :
  let sigma := 0.2 in
  let t := 1 in
  let n_days := py_int (t * 252) in
  is_floor (t * 252) n_days /\
  match normal (RandomSource := trial_source) 0 (sigma / sqrt 252) n_days
          O with
  | Returned (returns, g') =>
      exists df straddle_return,
        simulate_asset_path (RS := trial_source) sigma t O =
          Returned ((df, straddle_return), g') /\
        Z.of_nat (length (col_price df)) = n_days /\
        hd_error (col_price df) =
          option_map (fun r => 1 + r) (hd_error returns) /\
        (col_price df <> [] ->
         forall d, Rabs (last (col_price df) d - 1) = straddle_return) /\
        (col_price df = [] -> straddle_return = 0)
  | Raised e => simulate_asset_path (RS := trial_source) sigma t O = Raised e
  end.
Proof.
  intros sigma t.
  apply (simulate_asset_path_series (RS := trial_source) sigma t O).
  unfold t. lra.
Defined.

(** ** The batch estimator, [five_prices]: the product along the day axis *)

Lemma length_zip_with {A B C : Type} (f : A -> B -> C) (l : list A)
  (l' : list B) :
  length l = length l' -> length (zip_with f l l') = length l.
Proof.
  revert l'. induction l as [|a l IH]; intros [|b l'] H; simpl in *;
    try discriminate; [reflexivity|].
  rewrite IH by congruence. reflexivity.
Qed.

Lemma nth_zip_with_Rmult (l l' : list R) (j : nat) :
  length l = length l' ->
  nth j (zip_with Rmult l l') 0 = nth j l 0 * nth j l' 0.
Proof.
  revert l' j. induction l as [|a l IH]; intros [|b l'] j H; simpl in *;
    try discriminate.
  - destruct j; lra.
  - destruct j as [|j]; [reflexivity|]. apply IH. congruence.
Qed.

Lemma map_nth_seq_self (l : list R) :
  map (fun j => nth j l 0) (seq 0 (length l)) = l.
Proof.
  apply (nth_ext _ _ 0 0).
  - rewrite length_map, length_seq. reflexivity.
  - intros j Hj. rewrite length_map, length_seq in Hj.
    rewrite (nth_indep _ 0 (nth 0 l 0))
      by (rewrite length_map, length_seq; exact Hj).
    rewrite (map_nth (fun j => nth j l 0)), seq_nth by exact Hj.
    reflexivity.
Qed.

Lemma fold_zip_with_columns (n : nat) (rows : list (list R)) :
  forall acc : list R,
    length acc = n ->
    Forall (fun row => length row = n) rows ->
    fold_left (zip_with Rmult) rows acc =
    map (fun j => nth j acc 0 * product (column j rows)) (seq 0 n).
Proof.
  induction rows as [|row rows IH]; intros acc Hacc Hrows; simpl.
  - rewrite <- (map_nth_seq_self acc) at 1. rewrite Hacc.
    apply map_ext. intros j. lra.
  - inversion Hrows as [|? ? Hrow Hrest]; subst.
    rewrite IH; [|rewrite length_zip_with; congruence|exact Hrest].
    apply map_ext. intros j.
    rewrite nth_zip_with_Rmult by congruence.
    fold (product (column j rows)). lra.
Qed.

Lemma prod_axis0_columns (n : nat) (rows : list (list R)) :
  Forall (fun row => length row = n) rows ->
  prod_axis0 n rows = map (fun j => product (column j rows)) (seq 0 n).
Proof.
  intros Hrows. unfold prod_axis0.
  rewrite (fold_zip_with_columns n) by (rewrite ?repeat_length; auto).
  apply map_ext_in. intros j Hj. apply in_seq in Hj.
  rewrite nth_repeat_lt by lia. lra.
Qed.

Lemma column_map_plus_one (j n : nat) (rows : list (list R)) :
  (j < n)%nat ->
  Forall (fun row => length row = n) rows ->
  column j (map (map (fun x => x + 1)) rows) =
  map (fun x => 1 + x) (column j rows).
Proof.
  intros Hj Hrows. unfold column. rewrite !map_map.
  apply map_ext_in. intros row Hin.
  rewrite Forall_forall in Hrows. specialize (Hrows row Hin).
  rewrite (nth_indep _ 0 (0 + 1)) by (rewrite length_map; lia).
  rewrite (map_nth (fun x => x + 1)). lra.
Qed.

Lemma column_straddle_return_product (draws : list R) :
  column_straddle_return draws =
  Rabs (product (map (fun x => 1 + x) draws) - 1).
Proof.
  unfold column_straddle_return. rewrite final_cumprod_product. reflexivity.
Qed.

Lemma column_straddle_return_nonneg (draws : list R) :
  0 <= column_straddle_return draws.
Proof. apply Rabs_pos. Qed.

(** The sum that a batch divides: the total of the straddle returns of
    the columns of the matrix. *)
Lemma batch_sum_columns (mc_paths : Z) (data : list (list R)) :
  Forall (fun row => Z.of_nat (length row) = mc_paths) data ->
  np_sum
    (map (fun p => Rabs (p - 1))
       (prod_axis0 (Z.to_nat mc_paths) (map (map (fun x => x + 1)) data))) =
  total (map column_straddle_return (columns (Z.to_nat mc_paths) data)).
Proof.
  intros Hshape.
  assert (Hrows : Forall (fun row => length row = Z.to_nat mc_paths) data).
  { eapply Forall_impl; [|exact Hshape]. simpl. intros row H. lia. }
  rewrite np_sum_total, prod_axis0_columns.
  - unfold columns. rewrite !map_map. f_equal.
    apply map_ext_in. intros j Hj. apply in_seq in Hj.
    rewrite column_straddle_return_product.
    rewrite (column_map_plus_one j (Z.to_nat mc_paths)) by (lia || assumption).
    reflexivity.
  - apply Forall_forall. intros row Hin.
    apply in_map_iff in Hin. destruct Hin as (row' & <- & Hin').
    rewrite length_map. rewrite Forall_forall in Hrows. auto.
Qed.

Lemma batch_price_mean (mc_paths : Z) (data : list (list R)) :
  (1 <= mc_paths)%Z ->
  Forall (fun row => Z.of_nat (length row) = mc_paths) data ->
  batch_price mc_paths data =
  Fin (arithmetic_mean
         (map column_straddle_return (columns (Z.to_nat mc_paths) data))).
Proof.
  intros Hn Hshape. unfold batch_price.
  rewrite batch_sum_columns by exact Hshape.
  unfold np_divide, arithmetic_mean, columns.
  assert (Hpos : 0 < IZR mc_paths) by (apply IZR_lt; lia).
  destruct (Req_dec_T (IZR mc_paths) 0) as [C|_]; [lra|].
  rewrite !length_map, length_seq, INR_IZR_INZ, Z2Nat.id by lia.
  reflexivity.
Qed.

(** The batch loop. *)

Section BatchLoop.

Context {RS : RandomSource}.

(** The loop appends the price of each batch it draws, in order. *)
Lemma five_loop_draw_batches (k : nat) (daily_vol : R) (n_days mc_paths : Z) :
  forall (results : list npfloat) (g : rng),
    five_loop k daily_vol n_days mc_paths results g =
    match draw_batches k daily_vol n_days mc_paths g with
    | Returned (ms, g') =>
        Returned (results ++ map (batch_price mc_paths) ms, g')
    | Raised e => Raised e
    end.
Proof.
  induction k as [|k IH]; intros results g.
  - simpl. unfold ret. rewrite app_nil_r. reflexivity.
  - simpl. unfold bind.
    destruct (normal2d 0 daily_vol n_days mc_paths g) as [[m g1]|e];
      [|reflexivity].
    rewrite IH.
    destruct (draw_batches k daily_vol n_days mc_paths g1) as [[ms g2]|e];
      [|reflexivity].
    unfold ret. rewrite <- app_assoc. reflexivity.
Qed.

Lemma draw_batches_shape (k : nat) (scale : R) (n_days mc_paths : Z) :
  forall (g : rng) (ms : list (list (list R))) (g' : rng),
    draw_batches k scale n_days mc_paths g = Returned (ms, g') ->
    length ms = k /\
    Forall (fun m => Z.of_nat (length m) = n_days /\
                     Forall (fun row => Z.of_nat (length row) = mc_paths) m)
      ms.
Proof.
  induction k as [|k IH]; intros g ms g'; simpl.
  - unfold ret. intros E. injection E as <- _. split; constructor.
  - unfold bind.
    destruct (normal2d 0 scale n_days mc_paths g) as [[m g1]|e] eqn:Em;
      [|discriminate].
    destruct (draw_batches k scale n_days mc_paths g1) as [[ms' g2]|e]
      eqn:Ems; [|discriminate].
    unfold ret. intros E. injection E as <- _.
    destruct (IH _ _ _ Ems) as [Hlen Hall]. split.
    + simpl. congruence.
    + constructor; [|exact Hall]. exact (normal2d_shape _ _ _ _ _ _ _ Em).
Qed.

Lemma five_prices_unfold (an_vol time : R) (mc_paths : Z) (g : rng) :
  five_prices an_vol time mc_paths g =
  match draw_batches 5 (an_vol / sqrt 252) (py_int (time * 252)) mc_paths g
  with
  | Returned (ms, g') => Returned (map (batch_price mc_paths) ms, g')
  | Raised e => Raised e
  end.
Proof. unfold five_prices. rewrite five_loop_draw_batches. reflexivity. Qed.

End BatchLoop.

(** C5.  For every [sigma], every [t > 0] and every [mc_paths >= 1], with
    [n_days] the floor of [t * 252]: when the generator yields the five
    matrices, each of [n_days] rows and [mc_paths] columns of draws of
    mean 0 and standard deviation [sigma / sqrt 252], [five_prices] returns
    exactly five floats, the one of each matrix in generation order, each
    the mean over the [mc_paths] columns of
    [|final value of the column's cumulative product of (1 + draw) - 1|];
    when the generator raises, so does the function. *)
Theorem five_prices_batch_means {RS : RandomSource}
  (sigma t : R) (mc_paths : Z) :
  0 < t -> (1 <= mc_paths)%Z ->
  let daily_vol := sigma / sqrt 252 in
  let n_days := py_int (t * 252) in
  is_floor (t * 252) n_days /\
  forall g : rng,
    match draw_batches 5 daily_vol n_days mc_paths g with
    | Returned (ms, g') =>
        Forall (fun m =>
                  Z.of_nat (length m) = n_days /\
                  Forall (fun row => Z.of_nat (length row) = mc_paths) m) ms /\
        exists prices,
          five_prices sigma t mc_paths g = Returned (prices, g') /\
          length prices = 5%nat /\
          prices =
          map (fun m =>
                 Fin (arithmetic_mean
                        (map column_straddle_return
                           (columns (Z.to_nat mc_paths) m)))) ms
    | Raised e => five_prices sigma t mc_paths g = Raised e
    end.
Proof.
  intros Ht Hn daily_vol n_days. split; [apply py_int_floor; lra|].
  intros g. rewrite five_prices_unfold. fold daily_vol. fold n_days.
  destruct (draw_batches 5 daily_vol n_days mc_paths g) as [[ms g']|e] eqn:E;
    [|reflexivity].
  destruct (draw_batches_shape _ _ _ _ _ _ _ E) as [Hlen Hall].
  split; [exact Hall|].
  eexists. split; [reflexivity|]. split.
  - rewrite length_map. exact Hlen.
  - apply map_ext_in. intros m Hin.
    rewrite Forall_forall in Hall. destruct (Hall m Hin) as [_ Hrows].
    apply batch_price_mean; assumption.
Qed.

Lemma five_prices_batch_means_witness :
  let sigma := 0.2 in
  let t := 1 in
  let mc_paths := 10000%Z in
  let n_days := py_int (t * 252) in
  is_floor (t * 252) n_days /\
  forall g : nat,
    match draw_batches (RS := trial_source) 5 (sigma / sqrt 252) n_days
            mc_paths g with
    | Returned (ms, g') =>
        Forall (fun m =>
                  Z.of_nat (length m) = n_days /\
                  Forall (fun row => Z.of_nat (length row) = mc_paths) m) ms /\
        exists prices,
          five_prices (RS := trial_source) sigma t mc_paths g =
            Returned (prices, g') /\
          length prices = 5%nat /\
          prices =
          map (fun m =>
                 Fin (arithmetic_mean
                        (map column_straddle_return
                           (columns (Z.to_nat mc_paths) m)))) ms
    | Raised e =>
        five_prices (RS := trial_source) sigma t mc_paths g = Raised e
    end.
Proof.
  intros sigma t mc_paths.
  apply (five_prices_batch_means (RS := trial_source) sigma t mc_paths).
  - unfold t. lra.
  - unfold mc_paths. lia.
Defined.

(** ** The average of a fixed return *)

Lemma float64_max_ge_256 : 256 <= float64_max.
Proof.
  unfold float64_max.
  assert (H52 : 1 <= 2 ^ 52) by (apply pow_R1_Rle; lra).
  assert (Hinv : / 2 ^ 52 <= 1).
  { rewrite <- Rinv_1. apply Rinv_le_contravar; lra. }
  assert (Hpow : 2 ^ 8 <= 2 ^ 1023) by (apply Rle_pow; [lra|lia]).
  assert (H8 : 2 ^ 8 = 256) by (simpl; lra).
  assert (Hpos : 0 < 2 ^ 1023) by lra.
  nra.
Qed.

(** A run against C8 as stated: in binary64 the mean of 0.1 repeated 3
    times is 0.10000000000000002, which is not 0.1.  The three items are
    equal, so every order of the two additions gives the same sum. *)
Lemma mean_of_repeated_tenth_in_binary64 :
  Binary64.eq (Binary64.mc_avg Binary64.tenth 3) Binary64.tenth = false /\
  Binary64.mc_avg Binary64.tenth 3 <> Binary64.tenth.
Proof.
  split; [vm_compute; reflexivity|].
  intros H.
  apply (f_equal (fun z => Binary64.eq z Binary64.tenth)) in H.
  vm_compute in H. discriminate H.
Qed.

(** C8, amended.  The mean of a list that repeats one scalar is exactly
    that scalar when the list has 1 item, and when it has 2 items and
    twice the scalar is within the binary64 range; the mean of a list of
    [n >= 1] zeros is 0; and for [n >= 1] copies of a scalar that is not
    negative the mean is not negative. *)
Theorem mc_avg_fixed_return_cases (straddle_return : R) (n : Z) :
  mc_avg straddle_return 1 = Fin straddle_return /\
  (Rabs straddle_return <= float64_max / 2 ->
   mc_avg straddle_return 2 = Fin straddle_return) /\
  ((1 <= n)%Z -> mc_avg 0 n = Fin 0) /\
  ((1 <= n)%Z -> 0 <= straddle_return -> np_nonneg (mc_avg straddle_return n)).
Proof.
  assert (Hrep : forall x k, (1 <= k)%Z -> mc_avg x k = Fin x).
  { intros x k Hk. unfold mc_avg, np_mean, np_divide.
    rewrite repeat_length, np_sum_total, total_repeat.
    assert (Hpos : 0 < INR (Z.to_nat k)) by (apply lt_0_INR; lia).
    destruct (Req_dec_T (INR (Z.to_nat k)) 0) as [C|_]; [lra|].
    f_equal. field. lra. }
  repeat split.
  - apply Hrep. lia.
  - intros _. apply Hrep. lia.
  - intros Hn. apply Hrep. exact Hn.
  - intros Hn Hx. rewrite Hrep by exact Hn. exact Hx.
Qed.

Lemma mc_avg_fixed_return_cases_witness :
  mc_avg 0.1 1 = Fin 0.1 /\
  mc_avg 0.1 2 = Fin 0.1 /\
  mc_avg 0 100 = Fin 0 /\
  np_nonneg (mc_avg 0.1 100).
Proof.
  destruct (mc_avg_fixed_return_cases 0.1 100) as (H1 & H2 & _ & H4).
  destruct (mc_avg_fixed_return_cases 0 100) as (_ & _ & H3 & _).
  pose proof float64_max_ge_256 as Hmax.
  split; [exact H1|]. split.
  - apply H2. rewrite Rabs_right by lra. lra.
  - split; [apply H3; lia|apply H4; [lia|lra]].
Defined.

(** ** Values when a count is zero, and where exceptions come from *)

(** A batch with no column: the empty sum 0.0 divided by 0 is nan. *)
Lemma batch_price_no_path (data : list (list R)) :
  Forall (fun row => Z.of_nat (length row) = 0%Z) data ->
  batch_price 0 data = NaN.
Proof.
  intros Hshape. unfold batch_price.
  rewrite batch_sum_columns by exact Hshape. simpl.
  unfold np_divide.
  destruct (Req_dec_T 0 0) as [_|C]; [reflexivity|contradiction].
Qed.

Lemma batch_price_nonneg (mc_paths : Z) (data : list (list R)) :
  mc_paths <> 0%Z ->
  Forall (fun row => Z.of_nat (length row) = mc_paths) data ->
  np_nonneg (batch_price mc_paths data).
Proof.
  intros Hn Hshape. unfold batch_price.
  rewrite batch_sum_columns by exact Hshape. unfold np_divide.
  destruct (Req_dec_T (IZR mc_paths) 0) as [C|_].
  { apply eq_IZR in C. contradiction. }
  simpl. destruct (Z.lt_ge_cases mc_paths 0) as [Hneg|Hpos].
  - replace (Z.to_nat mc_paths) with O by lia. simpl.
    unfold Rdiv. lra.
  - unfold Rdiv. apply Rle_mult_inv_pos.
    + apply total_nonneg, Forall_forall. intros x Hin.
      apply in_map_iff in Hin. destruct Hin as (col & <- & _).
      apply column_straddle_return_nonneg.
    + apply IZR_lt. lia.
Qed.

Section Provenance.

Context {RS : RandomSource}.

(** An exception that leaves the drawing of paths or of batches was
    raised by a call to the generator. *)
Lemma draw_paths_raised (k : nat) (scale : R) (n_days : Z) :
  forall (g : rng) (e : exn),
    draw_paths k scale n_days g = Raised e ->
    exists g1, normal 0 scale n_days g1 = Raised e.
Proof.
  induction k as [|k IH]; intros g e; simpl.
  - unfold ret. discriminate.
  - unfold bind.
    destruct (normal 0 scale n_days g) as [[p g1]|e1] eqn:Ep.
    + destruct (draw_paths k scale n_days g1) as [[ps g2]|e2] eqn:Eps.
      * unfold ret. discriminate.
      * intros E. injection E as <-. exact (IH _ _ Eps).
    + intros E. injection E as <-. exists g. exact Ep.
Qed.

Lemma draw_batches_raised (k : nat) (scale : R) (n_days mc_paths : Z) :
  forall (g : rng) (e : exn),
    draw_batches k scale n_days mc_paths g = Raised e ->
    exists g1, normal2d 0 scale n_days mc_paths g1 = Raised e.
Proof.
  induction k as [|k IH]; intros g e; simpl.
  - unfold ret. discriminate.
  - unfold bind.
    destruct (normal2d 0 scale n_days mc_paths g) as [[m g1]|e1] eqn:Em.
    + destruct (draw_batches k scale n_days mc_paths g1) as [[ms g2]|e2]
        eqn:Ems.
      * unfold ret. discriminate.
      * intros E. injection E as <-. exact (IH _ _ Ems).
    + intros E. injection E as <-. exists g. exact Em.
Qed.

Lemma straddle_pricer_mc_no_path (sigma t : R) (g : rng) :
  straddle_pricer_mc sigma t 0 g = Raised ZeroDivisionError.
Proof. reflexivity. Qed.

Lemma five_prices_no_path (sigma t : R) (g : rng) (prices : list npfloat)
  (g' : rng) :
  five_prices sigma t 0 g = Returned (prices, g') ->
  length prices = 5%nat /\ Forall (fun p => p = NaN) prices.
Proof.
  rewrite five_prices_unfold.
  destruct (draw_batches 5 _ _ 0 g) as [[ms g1]|e] eqn:E; [|discriminate].
  intros H. injection H as <- _.
  destruct (draw_batches_shape _ _ _ _ _ _ _ E) as [Hlen Hall]. split.
  - rewrite length_map. exact Hlen.
  - apply Forall_forall. intros p Hin.
    apply in_map_iff in Hin. destruct Hin as (m & <- & Hm).
    rewrite Forall_forall in Hall. destruct (Hall m Hm) as [_ Hrows].
    apply batch_price_no_path. exact Hrows.
Qed.

End Provenance.

(** ** Runs on the concrete source *)

Lemma daily_vol_nonneg (an_vol : R) : 0 <= an_vol -> 0 <= an_vol / sqrt 252.
Proof.
  intros H. unfold Rdiv. apply Rle_mult_inv_pos; [exact H|].
  apply sqrt_lt_R0. lra.
Qed.

Lemma trial_normal_returns (loc scale : R) (n : Z) (g : nat) :
  0 <= scale -> (0 <= n)%Z ->
  trial_normal loc scale n g =
  Returned (trial_row loc scale g (Z.to_nat n), (g + Z.to_nat n)%nat).
Proof.
  intros Hs Hn. unfold trial_normal.
  destruct (Rlt_dec scale 0) as [C|_]; [lra|].
  destruct (Z.ltb_spec n 0) as [C|_]; [lia|]. reflexivity.
Qed.

Lemma trial_normal2d_returns (loc scale : R) (r c : Z) (g : nat) :
  0 <= scale -> (0 <= r)%Z -> (0 <= c)%Z ->
  trial_normal2d loc scale r c g =
  Returned
    (map (fun i => trial_row loc scale (g + i * Z.to_nat c) (Z.to_nat c))
       (seq 0 (Z.to_nat r)),
     (g + Z.to_nat r * Z.to_nat c)%nat).
Proof.
  intros Hs Hr Hc. unfold trial_normal2d.
  destruct (Rlt_dec scale 0) as [C|_]; [lra|].
  destruct (Z.ltb_spec r 0) as [C|_]; [lia|].
  destruct (Z.ltb_spec c 0) as [C|_]; [lia|].
  reflexivity.
Qed.

Lemma trial_draw_batches_returns (k : nat) (scale : R) (r c : Z) :
  0 <= scale -> (0 <= r)%Z -> (0 <= c)%Z ->
  forall g : nat,
  exists ms g',
    draw_batches (RS := trial_source) k scale r c g = Returned (ms, g').
Proof.
  intros Hs Hr Hc. induction k as [|k IH]; intros g; simpl.
  - eexists _, _. reflexivity.
  - unfold bind.
    simpl. rewrite (trial_normal2d_returns 0 scale r c g Hs Hr Hc).
    destruct (IH (g + Z.to_nat r * Z.to_nat c)%nat) as (ms & g' & Ems).
    rewrite Ems. eexists _, _. reflexivity.
Qed.

Lemma py_int_one_year : py_int (1 * 252) = 252%Z.
Proof. apply py_int_unique; [lra|]. unfold is_floor. simpl. lra. Qed.

Lemma py_int_two_days : py_int (1 / 126 * 252) = 2%Z.
Proof. apply py_int_unique; [lra|]. unfold is_floor. simpl. lra. Qed.

Lemma sq_daily_vol (an_vol : R) :
  (an_vol / sqrt 252) * (an_vol / sqrt 252) = an_vol * an_vol / 252.
Proof.
  assert (H : sqrt 252 * sqrt 252 = 252) by (apply sqrt_sqrt; lra).
  assert (Hpos : 0 < sqrt 252) by (apply sqrt_lt_R0; lra).
  rewrite <- H at 3. field. lra.
Qed.

Example straddle_pricer_mc_two_days (an_vol : R) :
  0 <= an_vol ->
  straddle_pricer_mc (RS := trial_source) an_vol (1 / 126) 2 O =
  Returned (an_vol * an_vol / 252, 4%nat).
Proof.
  intros H. pose proof (daily_vol_nonneg an_vol H) as Hdv.
  unfold straddle_pricer_mc. rewrite py_int_two_days.
  change (Z.to_nat 2) with 2%nat. unfold mc_loop, bind.
  change (@normal trial_source) with trial_normal.
  rewrite (trial_normal_returns 0 (an_vol / sqrt 252) 2 0) by (lra || lia).
  change (Z.to_nat 2) with 2%nat.
  rewrite trial_normal_returns by (lra || lia).
  unfold ret. simpl. f_equal. f_equal.
  unfold np_prod, trial_variate. simpl.
  set (dv := an_vol / sqrt 252) in *.
  replace (1 * (1 + (0 + dv * 1)) * (1 + (0 + dv * -1)) - 1) with (- (dv * dv)) by lra.
  rewrite Rabs_Ropp, Rabs_right by nra. unfold dv. rewrite sq_daily_vol. lra.
Qed.

Example simulate_asset_path_two_days (an_vol : R) :
  0 <= an_vol ->
  let dv := an_vol / sqrt 252 in
  simulate_asset_path (RS := trial_source) an_vol (1 / 126) O =
  Returned
    (({| col_return := [0 + dv * 1 + 1; 0 + dv * -1 + 1];
         col_price := [0 + dv * 1 + 1;
                       (0 + dv * 1 + 1) * (0 + dv * -1 + 1)] |},
      an_vol * an_vol / 252), 2%nat).
Proof.
  intros H dv. pose proof (daily_vol_nonneg an_vol H) as Hdv.
  unfold simulate_asset_path, bind. rewrite py_int_two_days.
  change (@normal trial_source) with trial_normal.
  rewrite trial_normal_returns by (lra || lia).
  unfold ret. fold dv. simpl. f_equal. f_equal. f_equal.
  unfold np_prod, trial_variate. simpl.
  replace (1 * (1 + (0 + dv * 1)) * (1 + (0 + dv * -1)) - 1)
    with (- (dv * dv)) by lra.
  rewrite Rabs_Ropp, Rabs_right by nra. unfold dv. apply sq_daily_vol.
Qed.

Lemma py_int_one_day : py_int (1 / 252 * 252) = 1%Z.
Proof. apply py_int_unique; [lra|]. unfold is_floor. simpl. lra. Qed.

Example five_prices_one_day (an_vol : R) :
  0 <= an_vol ->
  let dv := an_vol / sqrt 252 in
  five_prices (RS := trial_source) an_vol (1 / 252) 2 O =
  Returned ([Fin dv; Fin dv; Fin dv; Fin dv; Fin dv], 10%nat).
Proof.
  intros H dv. pose proof (daily_vol_nonneg an_vol H) as Hdv.
  fold dv in Hdv.
  assert (Hbatch : forall i,
             Nat.even i = true ->
             batch_price 2 [[0 + dv * trial_variate i;
                             0 + dv * trial_variate (S i)]] = Fin dv).
  { clearbody dv. intros i Hi.
    unfold batch_price, np_divide, np_sum, prod_axis0, trial_variate.
    rewrite Nat.even_succ, <- Nat.negb_even, Hi. simpl.
    destruct (Req_dec_T 2 0) as [C|_]; [lra|]. f_equal.
    replace (1 * (0 + dv * 1 + 1) - 1) with dv by lra.
    replace (1 * (0 + dv * -1 + 1) - 1) with (- dv) by lra.
    rewrite Rabs_Ropp, Rabs_right by lra. lra. }
  unfold five_prices. rewrite py_int_one_day. fold dv.
  unfold five_loop, bind.
  change (@normal2d trial_source) with trial_normal2d.
  rewrite !trial_normal2d_returns by (lra || lia).
  change (Z.to_nat 1) with 1%nat. change (Z.to_nat 2) with 2%nat.
  cbn [seq map Nat.add Nat.mul trial_row app]. unfold ret.
  rewrite !Hbatch by reflexivity. reflexivity.
Qed.

Lemma py_int_under_one_day : py_int (0.001 * 252) = 0%Z.
Proof. apply py_int_unique; [lra|]. unfold is_floor. simpl. lra. Qed.

Example straddle_pricer_mc_under_one_day (an_vol : R) :
  0 <= an_vol ->
  straddle_pricer_mc (RS := trial_source) an_vol 0.001 3 O =
  Returned (0, 0%nat).
Proof.
  intros H. pose proof (daily_vol_nonneg an_vol H) as Hdv.
  unfold straddle_pricer_mc. rewrite py_int_under_one_day.
  change (Z.to_nat 3) with 3%nat. unfold mc_loop, bind.
  change (@normal trial_source) with trial_normal.
  repeat (rewrite trial_normal_returns by (lra || lia);
          change (Z.to_nat 0) with 0%nat; cbn [Nat.add trial_row seq map]).
  unfold ret, np_prod. simpl. f_equal. f_equal.
  replace (1 - 1) with 0 by lra. rewrite Rabs_R0. lra.
Qed.

Example straddle_price_zero_vol (t : R) :
  0 <= t -> straddle_price 0 t = Fin 0.
Proof.
  intros Ht. rewrite straddle_price_value by exact Ht. f_equal. lra.
Qed.

(** ** Counts of zero and invalid parameters *)

(** A run against C10 as stated: with the default volatility and horizon
    and [mc_paths = 0], [five_prices] returns five nan, and nan is not a
    non-negative number. *)
Lemma five_prices_no_path_nan :
  exists g' : nat,
    five_prices (RS := trial_source) 0.2 1 0 O =
    Returned ([NaN; NaN; NaN; NaN; NaN], g') /\
    ~ Forall np_nonneg [NaN; NaN; NaN; NaN; NaN].
Proof.
  destruct (trial_draw_batches_returns 5 (0.2 / sqrt 252) 252 0)
    with (g := O) as (ms & g' & E); try lia.
  { apply daily_vol_nonneg. lra. }
  assert (Hrun : five_prices (RS := trial_source) 0.2 1 0 O =
                 Returned (map (batch_price 0) ms, g')).
  { rewrite five_prices_unfold, py_int_one_year, E. reflexivity. }
  destruct (five_prices_no_path (RS := trial_source) _ _ _ _ _ Hrun)
    as [Hlen Hall].
  exists g'. split.
  - rewrite Hrun. f_equal. f_equal.
    destruct (map (batch_price 0) ms) as [|p1 [|p2 [|p3 [|p4 [|p5 [|p6 l]]]]]];
      try discriminate.
    repeat match goal with
           | H : Forall _ (_ :: _) |- _ => inversion H; clear H; subst
           end.
    reflexivity.
  - intros H. inversion H as [|? ? Hnan _]. exact Hnan.
Qed.

(** C10, amended.  Whatever the inputs and the draws: a value returned by
    [straddle_pricer_mc] is not negative; when [mc_paths] is not 0, every
    element of a list returned by [five_prices] is a number that is not
    negative; the [straddle_return] returned by [simulate_asset_path] is
    not negative. *)
Theorem estimates_nonneg {RS : RandomSource}
  (sigma t : R) (mc_paths : Z) (g : rng) :
  (forall v g',
      straddle_pricer_mc sigma t mc_paths g = Returned (v, g') -> 0 <= v) /\
  (mc_paths <> 0%Z ->
   forall prices g',
     five_prices sigma t mc_paths g = Returned (prices, g') ->
     Forall np_nonneg prices) /\
  (forall df straddle_return g',
      simulate_asset_path sigma t g = Returned ((df, straddle_return), g') ->
      0 <= straddle_return).
Proof.
  repeat split.
  - intros v g'. rewrite straddle_pricer_mc_unfold.
    destruct (draw_paths _ _ _ g) as [[paths g1]|e] eqn:E; [|discriminate].
    destruct (Z.eqb_spec mc_paths 0) as [_|Hn]; [discriminate|].
    intros H. injection H as <- _.
    assert (Htot : 0 <= total (map path_straddle_return paths)).
    { apply total_nonneg, Forall_forall. intros x Hin.
      apply in_map_iff in Hin. destruct Hin as (p & <- & _).
      apply path_straddle_return_nonneg. }
    destruct (Z.lt_ge_cases mc_paths 0) as [Hneg|Hpos].
    + destruct (draw_paths_shape _ _ _ _ _ _ E) as [Hlen _].
      destruct paths as [|p ps]; [|simpl in Hlen; lia].
      simpl. unfold Rdiv. lra.
    + unfold Rdiv. apply Rle_mult_inv_pos; [exact Htot|].
      apply IZR_lt. lia.
  - intros Hn prices g'. rewrite five_prices_unfold.
    destruct (draw_batches 5 _ _ mc_paths g) as [[ms g1]|e] eqn:E;
      [|discriminate].
    intros H. injection H as <- _.
    destruct (draw_batches_shape _ _ _ _ _ _ _ E) as [_ Hall].
    apply Forall_forall. intros p Hin.
    apply in_map_iff in Hin. destruct Hin as (m & <- & Hm).
    rewrite Forall_forall in Hall. destruct (Hall m Hm) as [_ Hrows].
    apply batch_price_nonneg; assumption.
  - intros df straddle_return g'. unfold simulate_asset_path, bind.
    destruct (normal 0 _ _ g) as [[returns g1]|e]; [|discriminate].
    unfold ret. intros H. injection H as _ <- _. apply Rabs_pos.
Qed.

Lemma estimates_nonneg_witness :
  (forall v g',
      straddle_pricer_mc (RS := trial_source) 0.2 1 100 O =
        Returned (v, g') -> 0 <= v) /\
  (forall prices g',
      five_prices (RS := trial_source) 0.2 1 100 O = Returned (prices, g') ->
      Forall np_nonneg prices) /\
  (forall df straddle_return g',
      simulate_asset_path (RS := trial_source) 0.2 1 O =
        Returned ((df, straddle_return), g') ->
      0 <= straddle_return).
Proof.
  destruct (estimates_nonneg (RS := trial_source) 0.2 1 100 O)
    as (Hmc & Hfive & Hsim).
  split; [exact Hmc|]. split; [|exact Hsim].
  apply Hfive. lia.
Defined.

(** Runs against C6 as stated: a requested path count of zero ends
    [straddle_pricer_mc] with Python's [ZeroDivisionError], which is not an
    [InvalidParameter] error, and a negative volatility makes
    [straddle_price] return a negative number instead of failing. *)
Lemma invalid_parameters_not_rejected :
  straddle_pricer_mc (RS := trial_source) 0.2 1 0 O =
    Raised ZeroDivisionError /\
  ~ fails_with_InvalidParameter
      (straddle_pricer_mc (RS := trial_source) 0.2 1 0 O) /\
  exists v, straddle_price (-0.2) 1 = Fin v /\ v < 0.
Proof.
  split; [reflexivity|]. split.
  - intros (param & value & H). discriminate H.
  - eexists. split; [apply straddle_price_value; lra|].
    pose proof straddle_coefficient_pos as Hc.
    rewrite sqrt_1. nra.
Qed.

(** C6, amended.  The functions validate nothing and raise no
    [InvalidParameter] error of their own.  [straddle_price] gives a value
    for every input: a value that is not positive for a negative
    volatility and a positive horizon, 0 for the horizon 0, nan for a
    negative horizon.  For a horizon whose product with 252 is within the
    binary64 range, so that [int()] returns: [straddle_pricer_mc] with
    [mc_paths = 0] fails with [ZeroDivisionError], and every other
    exception that leaves [straddle_pricer_mc], [five_prices] or
    [simulate_asset_path] was raised by a call to the random generator (a
    day count of zero raises none).  A list that [five_prices] returns
    with [mc_paths = 0] holds five nan. *)
Theorem no_parameter_validation {RS : RandomSource}
  (sigma t : R) (mc_paths : Z) (g : rng) :
  let daily_vol := sigma / sqrt 252 in
  let n_days := py_int (t * 252) in
  (sigma < 0 -> 0 < t -> np_nonpos (straddle_price sigma t)) /\
  (t = 0 -> straddle_price sigma t = Fin 0) /\
  (t < 0 -> straddle_price sigma t = NaN) /\
  (int_defined (t * 252) ->
   straddle_pricer_mc sigma t 0 g = Raised ZeroDivisionError) /\
  (forall prices g',
      five_prices sigma t 0 g = Returned (prices, g') ->
      length prices = 5%nat /\ Forall (fun p => p = NaN) prices) /\
  (int_defined (t * 252) ->
   forall e,
     straddle_pricer_mc sigma t mc_paths g = Raised e ->
     (mc_paths = 0%Z /\ e = ZeroDivisionError) \/
     exists g1, normal 0 daily_vol n_days g1 = Raised e) /\
  (int_defined (t * 252) ->
   forall e,
     five_prices sigma t mc_paths g = Raised e ->
     exists g1, normal2d 0 daily_vol n_days mc_paths g1 = Raised e) /\
  (int_defined (t * 252) ->
   forall e,
     simulate_asset_path sigma t g = Raised e ->
     normal 0 daily_vol n_days g = Raised e).
Proof.
  intros daily_vol n_days.
  pose proof straddle_coefficient_pos as Hc.
  repeat match goal with |- _ /\ _ => split end.
  - intros Hs Ht. rewrite straddle_price_value by lra. simpl.
    pose proof (sqrt_pos t) as Hsq.
    assert (H : 2 / Rpower (2 * PI) 0.5 * sigma <= 0) by nra. nra.
  - intros ->. rewrite straddle_price_value by lra.
    rewrite sqrt_0. f_equal. lra.
  - intros Ht. apply straddle_price_negative_time. exact Ht.
  - intros _. reflexivity.
  - intros prices g'. apply five_prices_no_path.
  - intros _ e. rewrite straddle_pricer_mc_unfold.
    fold daily_vol. fold n_days.
    destruct (draw_paths (Z.to_nat mc_paths) daily_vol n_days g)
      as [[paths g1]|e1] eqn:E.
    + destruct (Z.eqb_spec mc_paths 0) as [H0|_]; [|discriminate].
      intros H. injection H as <-. left. split; [exact H0|reflexivity].
    + intros H. injection H as <-. right.
      exact (draw_paths_raised _ _ _ _ _ E).
  - intros _ e. rewrite five_prices_unfold. fold daily_vol. fold n_days.
    destruct (draw_batches 5 daily_vol n_days mc_paths g)
      as [[ms g1]|e1] eqn:E; [discriminate|].
    intros H. injection H as <-.
    exact (draw_batches_raised _ _ _ _ _ _ E).
  - intros _ e. unfold simulate_asset_path, bind.
    fold daily_vol. fold n_days.
    destruct (normal 0 daily_vol n_days g) as [[returns g1]|e1];
      [unfold ret; discriminate|].
    intros H. injection H as <-. reflexivity.
Qed.

Lemma int_defined_one_year : int_defined (1 * 252).
Proof.
  unfold int_defined. pose proof float64_max_ge_256 as Hmax.
  rewrite Rabs_right by lra. lra.
Qed.

Lemma no_parameter_validation_witness :
  np_nonpos (straddle_price (-0.2) 1) /\
  straddle_price 0.2 0 = Fin 0 /\
  straddle_price 0.2 (-1) = NaN /\
  straddle_pricer_mc (RS := trial_source) 0.2 1 0 O =
    Raised ZeroDivisionError /\
  (forall e,
      simulate_asset_path (RS := trial_source) 0.2 1 O = Raised e ->
      normal (RandomSource := trial_source) 0 (0.2 / sqrt 252)
        (py_int (1 * 252)) O = Raised e).
Proof.
  pose proof (no_parameter_validation (RS := trial_source) (-0.2) 1 0 O)
    as (Hneg & _).
  pose proof (no_parameter_validation (RS := trial_source) 0.2 0 0 O)
    as (_ & Hzero & _).
  pose proof (no_parameter_validation (RS := trial_source) 0.2 (-1) 0 O)
    as (_ & _ & Hnan & _).
  pose proof (no_parameter_validation (RS := trial_source) 0.2 1 0 O)
    as (_ & _ & _ & Hdiv & _ & _ & _ & Hsim).
  split; [apply Hneg; lra|]. split; [apply Hzero; reflexivity|].
  split; [apply Hnan; lra|]. split.
  - apply Hdiv. exact int_defined_one_year.
  - apply Hsim. exact int_defined_one_year.
Defined.

(** A run against C9 as stated: with the volatility -0.2 the standard
    deviation requested is negative and the generator, as numpy does,
    rejects it although no draw is asked for; [straddle_pricer_mc] raises
    [ValueError] instead of returning 0. *)
Lemma straddle_pricer_mc_no_day_negative_vol :
  0 < 0.001 < 1 / 252 /\
  straddle_pricer_mc (RS := trial_source) (-0.2) 0.001 1 O =
  Raised ValueError.
Proof.
  split; [lra|].
  assert (Hneg : -0.2 / sqrt 252 < 0).
  { assert (Hs : 0 < sqrt 252) by (apply sqrt_lt_R0; lra).
    assert (Hi : 0 < / sqrt 252) by (apply Rinv_0_lt_compat; exact Hs).
    unfold Rdiv. nra. }
  unfold straddle_pricer_mc. rewrite py_int_under_one_day.
  change (Z.to_nat 1) with 1%nat. unfold mc_loop, bind.
  change (@normal trial_source) with trial_normal. unfold trial_normal.
  destruct (Rlt_dec (-0.2 / sqrt 252) 0) as [_|C]; [reflexivity|].
  contradiction.
Qed.

Lemma straddle_pricer_mc_no_day_witness :
  py_int (0.001 * 252) = 0%Z /\
  match draw_paths (RS := trial_source) (Z.to_nat 100) (0.2 / sqrt 252) 0 O
  with
  | Returned (_, g') =>
      straddle_pricer_mc (RS := trial_source) 0.2 0.001 100 O =
      Returned (0, g')
  | Raised e =>
      straddle_pricer_mc (RS := trial_source) 0.2 0.001 100 O = Raised e
  end /\
  exists g',
    straddle_pricer_mc (RS := trial_source) 0.2 0.001 100 O =
    Returned (0, g').
Proof.
  destruct (straddle_pricer_mc_no_day (RS := trial_source) 0.2 0.001 100 O)
    as (H0 & Hrun & Hacc); [lra|lra|lia|].
  split; [exact H0|]. split; [exact Hrun|].
  apply Hacc. intros g0. eexists _, _.
  apply trial_normal_returns; [|lia].
  apply daily_vol_nonneg. lra.
Defined.

(** ** The sign of the analytical estimate *)

(** X4.  For a volatility and a horizon that are not negative the
    analytical price is not negative, and it is 0 when the volatility is
    0 and when the horizon is 0. *)
Theorem straddle_price_sign (sigma t : R) :
  0 <= sigma -> 0 <= t ->
  np_nonneg (straddle_price sigma t) /\
  (sigma = 0 \/ t = 0 -> straddle_price sigma t = Fin 0).
Proof.
  intros Hs Ht. pose proof straddle_coefficient_pos as Hc.
  rewrite straddle_price_value by exact Ht.
  pose proof (sqrt_pos t) as Hsq. split.
  - simpl. apply Rmult_le_pos; [apply Rmult_le_pos|]; lra.
  - intros [-> | ->]; [|rewrite sqrt_0]; f_equal; lra.
Qed.

Lemma straddle_price_sign_witness :
  np_nonneg (straddle_price 0.2 1) /\
  straddle_price 0 1 = Fin 0 /\
  straddle_price 0.2 0 = Fin 0.
Proof.
  split; [apply (straddle_price_sign 0.2 1); lra|]. split.
  - apply (straddle_price_sign 0 1); [lra|lra|]. left. reflexivity.
  - apply (straddle_price_sign 0.2 0); [lra|lra|]. right. reflexivity.
Defined.

(** ** The day count outside the positive horizons *)

Lemma Int_part_eq (x : R) (k : Z) : is_floor x k -> Int_part x = k.
Proof.
  unfold is_floor. intros [H1 H2]. symmetry. apply Int_part_spec. lra.
Qed.

Lemma py_int_neg (x : R) : x < 0 -> py_int x = (- Int_part (- x))%Z.
Proof.
  intros Hx. unfold py_int.
  destruct (Rle_dec 0 x) as [C|_]; [lra|]. reflexivity.
Qed.

Lemma py_int_nonneg (x : R) : 0 <= x -> py_int x = Int_part x.
Proof.
  intros Hx. unfold py_int.
  destruct (Rle_dec 0 x) as [_|C]; [reflexivity|contradiction].
Qed.

Lemma py_int_0 : py_int 0 = 0%Z.
Proof. apply py_int_unique; [lra|]. unfold is_floor. simpl. lra. Qed.

(** X5.  [int()] truncates toward zero: the day count of the horizon
    [-t] is the opposite of the day count of [t]; the integer lies between
    0 and the argument, less than 1 away from it.  For a negative argument
    that is not an integer it is therefore the floor plus 1. *)
Theorem py_int_truncates (x : R) :
  py_int (- x) = (- py_int x)%Z /\
  Rabs (IZR (py_int x)) <= Rabs x < Rabs (IZR (py_int x)) + 1 /\
  0 <= IZR (py_int x) * x.
Proof.
  assert (Hnn : forall y, 0 <= y ->
            0 <= IZR (py_int y) /\ IZR (py_int y) <= y < IZR (py_int y) + 1).
  { intros y Hy. destruct (py_int_floor y Hy) as [H1 H2].
    split; [|lra].
    assert (H : (-1 < py_int y)%Z) by (apply lt_IZR; simpl; lra).
    apply IZR_le. lia. }
  destruct (Rle_dec 0 x) as [Hx|Hx].
  - destruct (Hnn x Hx) as (H0 & H1 & H2). split; [|split].
    + destruct (Req_dec_T x 0) as [->|Hne].
      * rewrite Ropp_0, py_int_0. reflexivity.
      * rewrite py_int_neg by lra. rewrite Ropp_involutive.
        rewrite py_int_nonneg by exact Hx. reflexivity.
    + rewrite !Rabs_right by lra. lra.
    + apply Rmult_le_pos; assumption.
  - assert (Hx' : x < 0) by lra.
    destruct (Hnn (- x)) as (H0 & H1 & H2); [lra|].
    assert (E : py_int x = (- py_int (- x))%Z).
    { rewrite py_int_neg by exact Hx'. rewrite py_int_nonneg by lra.
      reflexivity. }
    split; [|split].
    + rewrite E. lia.
    + rewrite E, opp_IZR, Rabs_Ropp, (Rabs_left x) by exact Hx'.
      rewrite Rabs_right by lra. lra.
    + rewrite E, opp_IZR. nra.
Qed.

Lemma py_int_small (x : R) : -1 < x -> x < 1 -> py_int x = 0%Z.
Proof.
  intros H1 H2. destruct (Rle_dec 0 x) as [Hx|Hx].
  - apply py_int_unique; [exact Hx|]. unfold is_floor. simpl. lra.
  - rewrite py_int_neg by lra.
    rewrite (Int_part_eq (- x) 0); [reflexivity|].
    unfold is_floor. simpl. lra.
Qed.

Lemma py_int_le_minus_one (x : R) : x <= -1 -> (py_int x <= -1)%Z.
Proof.
  intros Hx. rewrite py_int_neg by lra.
  destruct (base_Int_part (- x)) as [H1 H2].
  assert (H : (0 < Int_part (- x))%Z) by (apply lt_IZR; simpl; lra).
  lia.
Qed.

Lemma batch_price_no_day (mc_paths : Z) :
  (1 <= mc_paths)%Z -> batch_price mc_paths [] = Fin 0.
Proof.
  intros Hn. rewrite batch_price_mean by (assumption || constructor).
  f_equal. unfold arithmetic_mean, columns.
  assert (Hpos : 0 < INR (Z.to_nat mc_paths)) by (apply lt_0_INR; lia).
  rewrite !length_map, length_seq.
  assert (Htot : forall l : list nat,
             total (map column_straddle_return
                      (map (fun j => column j []) l)) = 0).
  { induction l as [|j l IH]; [reflexivity|].
    change (column_straddle_return [] +
            total (map column_straddle_return
                     (map (fun j => column j []) l)) = 0).
    rewrite IH. unfold column_straddle_return, final_cumprod. simpl.
    replace (1 - 1) with 0 by lra. rewrite Rabs_R0. lra. }
  rewrite Htot. unfold Rdiv. lra.
Qed.

Section NoDay.

Context {RS : RandomSource}.

(** X6.  A horizon of less than one trading day on either side of 0 has
    the day count 0, and [five_prices] with [mc_paths >= 1] then returns
    five zeros whenever the generator returns its (empty) matrices; an
    exception of the generator propagates. *)
Theorem five_prices_no_day (sigma t : R) (mc_paths : Z) (g : rng) :
  -1 / 252 < t -> t < 1 / 252 -> (1 <= mc_paths)%Z ->
  py_int (t * 252) = 0%Z /\
  match draw_batches 5 (sigma / sqrt 252) 0 mc_paths g with
  | Returned (_, g') =>
      five_prices sigma t mc_paths g =
      Returned ([Fin 0; Fin 0; Fin 0; Fin 0; Fin 0], g')
  | Raised e => five_prices sigma t mc_paths g = Raised e
  end.
Proof.
  intros Ht Ht' Hn.
  assert (H0 : py_int (t * 252) = 0%Z) by (apply py_int_small; lra).
  split; [exact H0|].
  rewrite five_prices_unfold, H0.
  destruct (draw_batches 5 (sigma / sqrt 252) 0 mc_paths g)
    as [[ms g']|e] eqn:E; [|reflexivity].
  destruct (draw_batches_shape _ _ _ _ _ _ _ E) as [Hlen Hall].
  f_equal. f_equal.
  assert (Hnil : Forall (fun m => m = []) ms).
  { eapply Forall_impl; [|exact Hall]. simpl. intros m [Hm _].
    destruct m; [reflexivity|simpl in Hm; lia]. }
  destruct ms as [|m1 [|m2 [|m3 [|m4 [|m5 [|m6 l]]]]]]; try discriminate.
  repeat match goal with
         | H : Forall _ (_ :: _) |- _ => inversion H; clear H; subst
         end.
  simpl. rewrite batch_price_no_day by exact Hn. reflexivity.
Qed.

(** X7.  For such a horizon [simulate_asset_path] returns a frame whose
    two columns are empty and the straddle return 0 whenever the generator
    returns its (empty) array; an exception of the generator propagates. *)
Theorem simulate_asset_path_no_day (sigma t : R) (g : rng) :
  -1 / 252 < t -> t < 1 / 252 ->
  match normal 0 (sigma / sqrt 252) 0 g with
  | Returned (_, g') =>
      simulate_asset_path sigma t g =
      Returned (({| col_return := []; col_price := [] |}, 0), g')
  | Raised e => simulate_asset_path sigma t g = Raised e
  end.
Proof.
  intros Ht Ht'.
  assert (H0 : py_int (t * 252) = 0%Z) by (apply py_int_small; lra).
  unfold simulate_asset_path, bind. rewrite H0.
  destruct (normal 0 (sigma / sqrt 252) 0 g) as [[returns g']|e] eqn:E;
    [|reflexivity].
  pose proof (normal_shape _ _ _ _ _ _ E) as Hlen.
  destruct returns as [|x l]; [|simpl in Hlen; lia].
  unfold ret. simpl. unfold np_prod. simpl.
  replace (1 - 1) with 0 by lra. rewrite Rabs_R0. reflexivity.
Qed.

(** X8.  A horizon of one trading day or more before 0 has a negative
    day count, and no array has a negative dimension: then
    [simulate_asset_path] and [five_prices] raise, and so does
    [straddle_pricer_mc] when [mc_paths >= 1]. *)
Theorem negative_horizon_raises (sigma t : R) (mc_paths : Z) (g : rng) :
  t <= -1 / 252 ->
  (py_int (t * 252) <= -1)%Z /\
  (exists e, simulate_asset_path sigma t g = Raised e) /\
  (exists e, five_prices sigma t mc_paths g = Raised e) /\
  ((1 <= mc_paths)%Z ->
   exists e, straddle_pricer_mc sigma t mc_paths g = Raised e).
Proof.
  intros Ht.
  assert (Hneg : (py_int (t * 252) <= -1)%Z)
    by (apply py_int_le_minus_one; lra).
  split; [exact Hneg|]. split; [|split].
  - unfold simulate_asset_path, bind.
    destruct (normal 0 _ _ g) as [[returns g']|e] eqn:E.
    + pose proof (normal_shape _ _ _ _ _ _ E). lia.
    + exists e. reflexivity.
  - rewrite five_prices_unfold.
    change (draw_batches 5 (sigma / sqrt 252) (py_int (t * 252)) mc_paths g)
      with ((m <- normal2d 0 (sigma / sqrt 252) (py_int (t * 252)) mc_paths ;;
             ms <- draw_batches 4 (sigma / sqrt 252) (py_int (t * 252))
                     mc_paths ;;
             ret (m :: ms)) g).
    unfold bind.
    destruct (normal2d 0 _ _ mc_paths g) as [[m g']|e] eqn:E.
    + destruct (normal2d_shape _ _ _ _ _ _ _ E) as [Hlen _]. lia.
    + exists e. reflexivity.
  - intros Hn. rewrite straddle_pricer_mc_unfold.
    destruct (Z.to_nat mc_paths) as [|k] eqn:Ek; [lia|].
    simpl. unfold bind.
    destruct (normal 0 _ _ g) as [[p g']|e] eqn:E.
    + pose proof (normal_shape _ _ _ _ _ _ E). lia.
    + exists e. reflexivity.
Qed.

(** X9.  With a negative [mc_paths] the loop of [straddle_pricer_mc] has
    no iteration: the function returns 0 and leaves the generator as it
    was, for every volatility and every horizon whose product with 252
    is within the binary64 range, so that [int()] returns. *)
Theorem straddle_pricer_mc_negative_paths (sigma t : R) (mc_paths : Z)
  (g : rng) :
  int_defined (t * 252) -> (mc_paths < 0)%Z ->
  straddle_pricer_mc sigma t mc_paths g = Returned (0, g).
Proof.
  intros _ Hn. unfold straddle_pricer_mc, bind.
  replace (Z.to_nat mc_paths) with O by lia. simpl.
  destruct (Z.eqb_spec mc_paths 0) as [C|_]; [lia|].
  unfold ret. f_equal. f_equal. unfold Rdiv. lra.
Qed.

End NoDay.

Lemma five_prices_no_day_witness :
  py_int (0.001 * 252) = 0%Z /\
  match draw_batches (RS := trial_source) 5 (0.2 / sqrt 252) 0 100 O with
  | Returned (_, g') =>
      five_prices (RS := trial_source) 0.2 0.001 100 O =
      Returned ([Fin 0; Fin 0; Fin 0; Fin 0; Fin 0], g')
  | Raised e => five_prices (RS := trial_source) 0.2 0.001 100 O = Raised e
  end.
Proof.
  apply (five_prices_no_day (RS := trial_source) 0.2 0.001 100 O);
    lra || lia.
Defined.

Lemma simulate_asset_path_no_day_witness :
  match normal (RandomSource := trial_source) 0 (0.2 / sqrt 252) 0 O with
  | Returned (_, g') =>
      simulate_asset_path (RS := trial_source) 0.2 (-0.001) O =
      Returned (({| col_return := []; col_price := [] |}, 0), g')
  | Raised e =>
      simulate_asset_path (RS := trial_source) 0.2 (-0.001) O = Raised e
  end.
Proof.
  apply (simulate_asset_path_no_day (RS := trial_source) 0.2 (-0.001) O);
    lra.
Defined.

Lemma negative_horizon_raises_witness :
  (py_int (-1 * 252) <= -1)%Z /\
  (exists e, simulate_asset_path (RS := trial_source) 0.2 (-1) O = Raised e) /\
  (exists e, five_prices (RS := trial_source) 0.2 (-1) 100 O = Raised e) /\
  exists e, straddle_pricer_mc (RS := trial_source) 0.2 (-1) 100 O = Raised e.
Proof.
  destruct (negative_horizon_raises (RS := trial_source) 0.2 (-1) 100 O)
    as (H1 & H2 & H3 & H4); [lra|].
  split; [exact H1|]. split; [exact H2|]. split; [exact H3|].
  apply H4. lia.
Defined.

Lemma straddle_pricer_mc_negative_paths_witness :
  straddle_pricer_mc (RS := trial_source) 0.2 1 (-3) O = Returned (0, O).
Proof.
  apply (straddle_pricer_mc_negative_paths (RS := trial_source) 0.2 1 (-3) O).
  - exact int_defined_one_year.
  - lia.
Defined.

(** ** The loop against the vectorized batch *)

(** X11.  On the same draws the vectorized batch of [five_prices] sums
    the same terms as the loop of [straddle_pricer_mc] adds: for a matrix
    with [mc_paths] columns, the values [|product down the column - 1|]
    that the batch sums are, column by column, the straddle returns
    [|np.prod(1 + returns) - 1|] that the loop computes for the columns
    taken as paths. *)
Theorem batch_terms_are_path_returns (mc_paths : Z) (data : list (list R)) :
  Forall (fun row => Z.of_nat (length row) = mc_paths) data ->
  map (fun p => Rabs (p - 1))
    (prod_axis0 (Z.to_nat mc_paths) (map (map (fun x => x + 1)) data)) =
  map (fun returns => Rabs (np_prod (map (fun r => 1 + r) returns) - 1))
    (columns (Z.to_nat mc_paths) data).
Proof.
  intros Hshape.
  assert (Hrows : Forall (fun row => length row = Z.to_nat mc_paths) data).
  { eapply Forall_impl; [|exact Hshape]. simpl. intros row H. lia. }
  rewrite prod_axis0_columns.
  - unfold columns. rewrite !map_map.
    apply map_ext_in. intros j Hj. apply in_seq in Hj.
    rewrite (column_map_plus_one j (Z.to_nat mc_paths)) by (lia || assumption).
    rewrite np_prod_product. reflexivity.
  - apply Forall_forall. intros row Hin.
    apply in_map_iff in Hin. destruct Hin as (row' & <- & Hin').
    rewrite length_map. rewrite Forall_forall in Hrows. auto.
Qed.

Lemma batch_terms_are_path_returns_witness :
  let data := [[0.01; -0.02]; [0.03; 0.04]] in
  map (fun p => Rabs (p - 1))
    (prod_axis0 (Z.to_nat 2) (map (map (fun x => x + 1)) data)) =
  map (fun returns => Rabs (np_prod (map (fun r => 1 + r) returns) - 1))
    (columns (Z.to_nat 2) data).
Proof.
  intros data. apply (batch_terms_are_path_returns 2 data).
  repeat constructor.
Defined.

(** ** The price series of [simulate_asset_path] *)

Lemma nth_cumprod_from (prev : R) (l : list R) (i : nat) (d : R) :
  (i < length l)%nat ->
  nth i (cumprod_from prev l) d = prev * product (firstn (S i) l).
Proof.
  revert prev i. induction l as [|x l IH]; intros prev i Hi; simpl in Hi.
  - lia.
  - destruct i as [|i].
    + simpl. lra.
    + change (nth (S i) (cumprod_from prev (x :: l)) d)
        with (nth i (cumprod_from (prev * x) l) d).
      rewrite IH by lia.
      change (product (firstn (S (S i)) (x :: l)))
        with (x * product (firstn (S i) l)).
      lra.
Qed.

Lemma nth_cumprod (l : list R) (i : nat) (d : R) :
  (i < length l)%nat ->
  nth i (cumprod l) d = product (firstn (S i) l).
Proof.
  destruct l as [|x l]; simpl; [lia|]. intros Hi.
  destruct i as [|i].
  - simpl. lra.
  - change (nth (S i) (x :: cumprod_from x l) d)
      with (nth i (cumprod_from x l) d).
    rewrite nth_cumprod_from by lia. reflexivity.
Qed.

Lemma product_firstn_S (l : list R) (i : nat) (d : R) :
  (i < length l)%nat ->
  product (firstn (S i) l) = product (firstn i l) * nth i l d.
Proof.
  revert i. induction l as [|x l IH]; intros i Hi; simpl in Hi; [lia|].
  destruct i as [|i].
  - simpl. lra.
  - change (product (firstn (S (S i)) (x :: l)))
      with (x * product (firstn (S i) l)).
    change (product (firstn (S i) (x :: l)))
      with (x * product (firstn i l)).
    change (nth (S i) (x :: l) d) with (nth i l d).
    rewrite (IH i) by lia. lra.
Qed.

(** X12.  In the frame that [simulate_asset_path] returns the two columns
    have the same length ([n_days] entries), the price of day [i] is the
    product of the factors of the days up to [i], and each price is the
    price of the day before times the factor of the day. *)
Theorem simulate_asset_path_running_product {RS : RandomSource}
  (sigma t : R) (g g' : rng) (df : DataFrame) (r : R) :
  simulate_asset_path sigma t g = Returned ((df, r), g') ->
  Z.of_nat (length (col_return df)) = py_int (t * 252) /\
  length (col_price df) = length (col_return df) /\
  (forall i d, (i < length (col_return df))%nat ->
     nth i (col_price df) d = product (firstn (S i) (col_return df))) /\
  (forall i d, (S i < length (col_return df))%nat ->
     nth (S i) (col_price df) d =
     nth i (col_price df) d * nth (S i) (col_return df) d).
Proof.
  unfold simulate_asset_path, bind.
  destruct (normal 0 _ _ g) as [[returns g1]|e] eqn:E; [|discriminate].
  unfold ret. intros H. injection H as <- _ _. simpl.
  pose proof (normal_shape _ _ _ _ _ _ E) as Hlen.
  set (col := map (fun x => x + 1) returns).
  repeat split.
  - unfold col. rewrite length_map. exact Hlen.
  - apply length_cumprod.
  - intros i d Hi. apply nth_cumprod. exact Hi.
  - intros i d Hi. rewrite !nth_cumprod by lia.
    apply product_firstn_S. exact Hi.
Qed.

Lemma simulate_asset_path_running_product_witness :
  let dv := 0.2 / sqrt 252 in
  let df := {| col_return := [0 + dv * 1 + 1; 0 + dv * -1 + 1];
               col_price := [0 + dv * 1 + 1;
                             (0 + dv * 1 + 1) * (0 + dv * -1 + 1)] |} in
  Z.of_nat (length (col_return df)) = py_int (1 / 126 * 252) /\
  length (col_price df) = length (col_return df) /\
  (forall i d, (i < length (col_return df))%nat ->
     nth i (col_price df) d = product (firstn (S i) (col_return df))) /\
  (forall i d, (S i < length (col_return df))%nat ->
     nth (S i) (col_price df) d =
     nth i (col_price df) d * nth (S i) (col_return df) d).
Proof.
  intros dv df.
  apply (simulate_asset_path_running_product (RS := trial_source)
           0.2 (1 / 126) O 2%nat df (0.2 * 0.2 / 252)).
  apply simulate_asset_path_two_days. lra.
Defined.

(** ** A bound on the straddle return *)

Lemma pow_one_plus_ge_1 (eps : R) (n : nat) : 0 <= eps -> 1 <= (1 + eps) ^ n.
Proof. intros H. apply pow_R1_Rle. lra. Qed.

(** Daily returns of size at most [eps] move the product of the factors
    away from 1 by at most [(1 + eps) ^ n - 1]. *)
Lemma path_straddle_return_bound (eps : R) (returns : list R) :
  Forall (fun r => Rabs r <= eps) returns ->
  path_straddle_return returns <= (1 + eps) ^ length returns - 1.
Proof.
  unfold path_straddle_return.
  induction 1 as [|r l Hr Hl IH].
  - simpl. replace (1 - 1) with 0 by lra. rewrite Rabs_R0. lra.
  - assert (Heps : 0 <= eps) by (pose proof (Rabs_pos r); lra).
    change (product (map (fun r => 1 + r) (r :: l)))
      with ((1 + r) * product (map (fun r => 1 + r) l)).
    set (P := product (map (fun r => 1 + r) l)) in *.
    set (B := (1 + eps) ^ length l - 1) in *.
    change ((1 + eps) ^ length (r :: l)) with ((1 + eps) * (1 + eps) ^ length l).
    replace ((1 + r) * P - 1) with ((1 + r) * (P - 1) + r) by lra.
    pose proof (Rabs_triang ((1 + r) * (P - 1)) r) as Htri.
    rewrite Rabs_mult in Htri.
    pose proof (Rabs_triang 1 r) as Htri1. rewrite Rabs_R1 in Htri1.
    pose proof (Rabs_pos (P - 1)) as HP.
    pose proof (Rabs_pos (1 + r)) as H1r.
    assert (Hmul : Rabs (1 + r) * Rabs (P - 1) <= (1 + eps) * B).
    { apply Rmult_le_compat; lra. }
    replace ((1 + eps) * (1 + eps) ^ length l - 1)
      with ((1 + eps) * B + eps) by (unfold B; lra).
    lra.
Qed.

Lemma total_le_bound (B : R) (l : list R) :
  Forall (fun x => x <= B) l -> total l <= INR (length l) * B.
Proof.
  induction 1 as [|x l Hx _ IH].
  - simpl. lra.
  - change (total (x :: l)) with (x + total l).
    change (length (x :: l)) with (S (length l)). rewrite S_INR. lra.
Qed.

(** X13.  When every daily factor of the frame that [simulate_asset_path]
    returns is within [eps] of 1, the straddle return it returns is at
    most [(1 + eps) ^ n - 1], with [n] the number of days of the frame. *)
Theorem simulate_asset_path_return_bound {RS : RandomSource}
  (sigma t eps : R) (g g' : rng) (df : DataFrame) (r : R) :
  simulate_asset_path sigma t g = Returned ((df, r), g') ->
  Forall (fun f => Rabs (f - 1) <= eps) (col_return df) ->
  0 <= r <= (1 + eps) ^ length (col_return df) - 1.
Proof.
  unfold simulate_asset_path, bind.
  destruct (normal 0 _ _ g) as [[returns g1]|e]; [|discriminate].
  unfold ret. intros H. injection H as <- <- _. simpl. intros Hall.
  rewrite np_prod_product. split; [apply Rabs_pos|].
  rewrite length_map.
  apply (path_straddle_return_bound eps returns).
  rewrite Forall_map in Hall.
  eapply Forall_impl; [|exact Hall]. simpl. intros x Hx.
  replace (x + 1 - 1) with x in Hx by lra. exact Hx.
Qed.

(** X14.  When the generator yields for [straddle_pricer_mc], with
    [mc_paths >= 1], paths whose daily returns are all of size at most
    [eps], the estimate it returns lies between 0 and
    [(1 + eps) ^ n_days - 1]. *)
Theorem straddle_pricer_mc_bound {RS : RandomSource}
  (sigma t eps : R) (mc_paths : Z) (g g' : rng) (paths : list (list R)) :
  (1 <= mc_paths)%Z ->
  draw_paths (Z.to_nat mc_paths) (sigma / sqrt 252) (py_int (t * 252)) g =
    Returned (paths, g') ->
  Forall (Forall (fun r => Rabs r <= eps)) paths ->
  exists v,
    straddle_pricer_mc sigma t mc_paths g = Returned (v, g') /\
    0 <= v <= (1 + eps) ^ Z.to_nat (py_int (t * 252)) - 1.
Proof.
  intros Hn E Hall. rewrite straddle_pricer_mc_unfold, E.
  destruct (Z.eqb_spec mc_paths 0) as [C|_]; [lia|].
  eexists. split; [reflexivity|].
  destruct (draw_paths_shape _ _ _ _ _ _ E) as [Hlen Hshape].
  set (B := (1 + eps) ^ Z.to_nat (py_int (t * 252)) - 1).
  assert (Hpos : 0 < IZR mc_paths) by (apply IZR_lt; lia).
  assert (Hlo : 0 <= total (map path_straddle_return paths)).
  { apply total_nonneg, Forall_forall. intros x Hin.
    apply in_map_iff in Hin. destruct Hin as (p & <- & _).
    apply path_straddle_return_nonneg. }
  assert (Hhi : total (map path_straddle_return paths) <= IZR mc_paths * B).
  { replace (IZR mc_paths)
      with (INR (length (map path_straddle_return paths)))
      by (rewrite length_map, Hlen, INR_IZR_INZ, Z2Nat.id by lia;
          reflexivity).
    apply total_le_bound. rewrite Forall_map.
    rewrite Forall_forall in Hall, Hshape. apply Forall_forall.
    intros p Hin. unfold B.
    replace (Z.to_nat (py_int (t * 252))) with (length p)
      by (specialize (Hshape p Hin); simpl in Hshape; lia).
    apply path_straddle_return_bound. apply Hall. exact Hin. }
  split.
  - unfold Rdiv. apply Rle_mult_inv_pos; assumption.
  - apply Rmult_le_reg_r with (IZR mc_paths); [exact Hpos|].
    unfold Rdiv. rewrite Rmult_assoc, Rinv_l by lra. lra.
Qed.

Lemma simulate_asset_path_return_bound_witness :
  let dv := 0.2 / sqrt 252 in
  0 <= 0.2 * 0.2 / 252 <= (1 + dv) ^ 2 - 1.
Proof.
  intros dv.
  assert (Hdv : 0 <= 0.2 / sqrt 252) by (apply daily_vol_nonneg; lra).
  fold dv in Hdv.
  apply (simulate_asset_path_return_bound (RS := trial_source)
           0.2 (1 / 126) dv O 2%nat
           {| col_return := [0 + dv * 1 + 1; 0 + dv * -1 + 1];
              col_price := [0 + dv * 1 + 1;
                            (0 + dv * 1 + 1) * (0 + dv * -1 + 1)] |}).
  - apply simulate_asset_path_two_days. lra.
  - simpl. clearbody dv. constructor; [|constructor; [|constructor]].
    + replace (0 + dv * 1 + 1 - 1) with dv by lra.
      rewrite Rabs_right; lra.
    + replace (0 + dv * -1 + 1 - 1) with (- dv) by lra.
      rewrite Rabs_Ropp, Rabs_right; lra.
Defined.

Lemma straddle_pricer_mc_bound_witness :
  let dv := 0.2 / sqrt 252 in
  exists v,
    straddle_pricer_mc (RS := trial_source) 0.2 (1 / 252) 2 O =
      Returned (v, 2%nat) /\
    0 <= v <= (1 + dv) ^ Z.to_nat (py_int (1 / 252 * 252)) - 1.
Proof.
  intros dv.
  assert (Hdv : 0 <= 0.2 / sqrt 252) by (apply daily_vol_nonneg; lra).
  apply (straddle_pricer_mc_bound (RS := trial_source) 0.2 (1 / 252) dv 2
           O 2%nat [[0 + dv * trial_variate 0]; [0 + dv * trial_variate 1]]).
  - lia.
  - rewrite py_int_one_day. change (Z.to_nat 2) with 2%nat.
    unfold draw_paths, bind.
    change (@normal trial_source) with trial_normal.
    rewrite (trial_normal_returns 0 (0.2 / sqrt 252) 1 0) by (lra || lia).
    change (Z.to_nat 1) with 1%nat.
    rewrite trial_normal_returns by (lra || lia).
    reflexivity.
  - fold dv in Hdv. clearbody dv. unfold trial_variate. simpl.
    constructor; [|constructor; [|constructor]].
    + constructor; [|constructor].
      replace (0 + dv * 1) with dv by lra. rewrite Rabs_right; lra.
    + constructor; [|constructor].
      replace (0 + dv * -1) with (- dv) by lra.
      rewrite Rabs_Ropp, Rabs_right; lra.
Defined.

(** ** The table of simulated prices *)

Lemma zip_with_ones (row : list R) :
  zip_with Rmult (repeat 1 (length row)) row = row.
Proof.
  induction row as [|x row IH]; simpl; [reflexivity|].
  rewrite IH. f_equal. lra.
Qed.

Lemma cumprod_axis0_from_shape (n : nat) (rows : list (list R)) :
  forall prev : list R,
    length prev = n ->
    Forall (fun row => length row = n) rows ->
    length (cumprod_axis0_from prev rows) = length rows /\
    Forall (fun row => length row = n) (cumprod_axis0_from prev rows).
Proof.
  induction rows as [|row rows IH]; intros prev Hprev Hrows; simpl.
  - split; constructor.
  - apply Forall_cons_iff in Hrows. destruct Hrows as [Hrow Hrest].
    assert (Hcur : length (zip_with Rmult prev row) = n)
      by (rewrite length_zip_with; congruence).
    destruct (IH (zip_with Rmult prev row) Hcur Hrest) as [Hlen Hall].
    split; [congruence|]. constructor; assumption.
Qed.

Lemma column_cumprod_axis0_from (n j : nat) (rows : list (list R)) :
  forall prev : list R,
    length prev = n ->
    Forall (fun row => length row = n) rows ->
    column j (cumprod_axis0_from prev rows) =
    cumprod_from (nth j prev 0) (column j rows).
Proof.
  induction rows as [|row rows IH]; intros prev Hprev Hrows; simpl.
  - reflexivity.
  - apply Forall_cons_iff in Hrows. destruct Hrows as [Hrow Hrest].
    rewrite nth_zip_with_Rmult by congruence. f_equal.
    fold (column j (cumprod_axis0_from (zip_with Rmult prev row) rows)).
    fold (column j rows).
    rewrite IH; [|rewrite length_zip_with; congruence|exact Hrest].
    rewrite nth_zip_with_Rmult by congruence. reflexivity.
Qed.

Lemma last_cumprod_axis0_from (rows : list (list R)) :
  forall (prev d : list R),
    last (prev :: cumprod_axis0_from prev rows) d =
    fold_left (zip_with Rmult) rows prev.
Proof.
  induction rows as [|row rows IH]; intros prev d.
  - reflexivity.
  - change (last (prev :: cumprod_axis0_from prev (row :: rows)) d)
      with (last (zip_with Rmult prev row
                    :: cumprod_axis0_from (zip_with Rmult prev row) rows) d).
    rewrite IH. reflexivity.
Qed.

(** The cumulative product of a table with [n] columns keeps its shape;
    each of its columns is the running product of the column of the
    table; and its last row holds the products down the columns, the
    values that [prod(axis=0)] gives. *)
Lemma cumprod_axis0_columns (n : nat) (rows : list (list R)) :
  Forall (fun row => length row = n) rows ->
  length (cumprod_axis0 rows) = length rows /\
  Forall (fun row => length row = n) (cumprod_axis0 rows) /\
  (forall j, column j (cumprod_axis0 rows) = cumprod (column j rows)) /\
  (rows <> [] -> forall d, last (cumprod_axis0 rows) d = prod_axis0 n rows).
Proof.
  intros Hrows. destruct rows as [|row rows].
  - repeat split; try constructor. intros C. congruence.
  - apply Forall_cons_iff in Hrows. destruct Hrows as [Hrow Hrest].
    destruct (cumprod_axis0_from_shape n rows row Hrow Hrest)
      as [Hlen Hall].
    repeat split.
    + simpl. congruence.
    + constructor; [exact Hrow|exact Hall].
    + intros j. simpl. f_equal.
      fold (column j (cumprod_axis0_from row rows)). fold (column j rows).
      apply (column_cumprod_axis0_from n); assumption.
    + intros _ d. unfold cumprod_axis0. rewrite last_cumprod_axis0_from.
      unfold prod_axis0. simpl. rewrite <- Hrow, zip_with_ones. reflexivity.
Qed.

(** ** The script body *)

Lemma np_mean_repeat (x : R) (k : nat) :
  (0 < k)%nat -> np_mean (repeat x k) = Fin x.
Proof.
  intros Hk. unfold np_mean, np_divide.
  rewrite repeat_length, np_sum_total, total_repeat.
  assert (Hpos : 0 < INR k) by (apply lt_0_INR; exact Hk).
  destruct (Req_dec_T (INR k) 0) as [C|_]; [lra|].
  f_equal. field. lra.
Qed.

Lemma column_map_one_plus (j n : nat) (rows : list (list R)) :
  (j < n)%nat ->
  Forall (fun row => length row = n) rows ->
  column j (map (map (fun x => 1 + x)) rows) =
  map (fun x => 1 + x) (column j rows).
Proof.
  intros Hj Hrows. unfold column. rewrite !map_map.
  apply map_ext_in. intros row Hin.
  rewrite Forall_forall in Hrows. specialize (Hrows row Hin).
  rewrite (nth_indep _ 0 (1 + 0)) by (rewrite length_map; lia).
  rewrite (map_nth (fun x => 1 + x)). reflexivity.
Qed.

Lemma length_map_map_rows (n : nat) (f : R -> R) (rows : list (list R)) :
  Forall (fun row => length row = n) rows ->
  Forall (fun row => length row = n) (map (map f) rows).
Proof.
  intros Hrows. apply Forall_forall. intros row Hin.
  apply in_map_iff in Hin. destruct Hin as (row' & <- & Hin').
  rewrite length_map. rewrite Forall_forall in Hrows. auto.
Qed.

(** A column of the table of cumulative products of the factors
    [1 + draw] is the running product of the factors of that column, and
    it ends at the value whose distance to 1 is the straddle return of
    the column of draws. *)
Lemma simulated_prices_columns (n j : nat) (m : list (list R)) :
  (j < n)%nat -> m <> [] ->
  Forall (fun row => length row = n) m ->
  let prices := cumprod_axis0 (map (map (fun x => 1 + x)) m) in
  column j prices = cumprod (map (fun x => 1 + x) (column j m)) /\
  column_straddle_return (column j m) = Rabs (nth j (last prices []) 0 - 1).
Proof.
  intros Hj Hne Hrows prices. unfold prices.
  set (m1 := map (map (fun x => 1 + x)) m).
  assert (Hrows1 : Forall (fun row => length row = n) m1)
    by (apply length_map_map_rows; exact Hrows).
  assert (Hcol : column j m1 = map (fun x => 1 + x) (column j m))
    by (apply (column_map_one_plus j n); assumption).
  destruct (cumprod_axis0_columns n m1 Hrows1) as (_ & _ & Hcols & Hlast).
  split; [rewrite Hcols, Hcol; reflexivity|].
  rewrite Hlast by (unfold m1; destruct m; [congruence|discriminate]).
  rewrite prod_axis0_columns by exact Hrows1.
  rewrite (nth_indep _ 0 (product (column 0 m1)))
    by (rewrite length_map, length_seq; exact Hj).
  rewrite (map_nth (fun j => product (column j m1))), seq_nth by exact Hj.
  cbn [Nat.add].
  rewrite column_straddle_return_product, Hcol. reflexivity.
Qed.

Section Script.

Context {RS : RandomSource}.

(** X15.  Whenever the script body runs to the end of step 6: the average
    of the fixed return, the Monte Carlo price and the five estimates are
    numbers that are not negative, the estimates five of them; the
    simulated asset has 252 prices; the table of simulated prices has 252
    rows of 4 columns, each column is the running product of the factors
    [1 + draw] of the column of the matrix, and it ends at a value whose
    distance to 1 is the straddle return of that column of draws. *)
Theorem script_body_values (g g' : rng) (v : ScriptValues) :
  script_body g = Returned (v, g') ->
  np_nonneg (mc_avg_value v) /\
  0 <= mc_price v /\
  length (five_estimates v) = 5%nat /\
  Forall np_nonneg (five_estimates v) /\
  length (col_price (simulated_asset v)) = 252%nat /\
  length (simulated_prices v) = 252%nat /\
  Forall (fun row => length row = 4%nat) (simulated_prices v) /\
  forall j, (j < 4)%nat ->
    column j (simulated_prices v) =
      cumprod (map (fun x => 1 + x) (column j (simulated_matrix v))) /\
    column_straddle_return (column j (simulated_matrix v)) =
      Rabs (nth j (last (simulated_prices v) []) 0 - 1).
Proof.
  unfold script_body, bind.
  rewrite straddle_pricer_mc_unfold, py_int_one_year.
  destruct (draw_paths (Z.to_nat 100) _ 252 g) as [[paths g1]|e] eqn:Ep;
    [|discriminate].
  change ((100 =? 0)%Z) with false. cbv iota.
  rewrite five_prices_unfold, py_int_one_year.
  destruct (draw_batches 5 _ 252 10000 g1) as [[ms g2]|e] eqn:Eb;
    [|discriminate].
  unfold simulate_asset_path, bind. rewrite py_int_one_year.
  destruct (normal 0 _ 252 g2) as [[returns g3]|e] eqn:En; [|discriminate].
  unfold ret. cbv beta iota. cbn [fst snd].
  destruct (normal2d 0 _ 252 4 g3) as [[m g4]|e] eqn:Em; [|discriminate].
  intros H. injection H as <- _. cbn [mc_avg_value straddle_return mc_price
    five_estimates simulated_asset simulated_prices simulated_matrix
    col_price].
  destruct (draw_batches_shape _ _ _ _ _ _ _ Eb) as [Hlen5 Hall5].
  pose proof (normal_shape _ _ _ _ _ _ En) as Hlen.
  destruct (normal2d_shape _ _ _ _ _ _ _ Em) as [Hrows Hcols].
  assert (Hcols' : Forall (fun row => length row = 4%nat) m).
  { eapply Forall_impl; [|exact Hcols]. simpl. intros row H. lia. }
  assert (Hcols1 : Forall (fun row => length row = 4%nat)
                     (map (map (fun x => 1 + x)) m))
    by (apply length_map_map_rows; exact Hcols').
  destruct (cumprod_axis0_columns 4 _ Hcols1) as (Hl & Hs & _).
  repeat match goal with |- _ /\ _ => split end.
  - unfold mc_avg. rewrite np_mean_repeat by (simpl; lia).
    simpl. apply Rabs_pos.
  - unfold Rdiv. apply Rle_mult_inv_pos; [|lra].
    apply total_nonneg, Forall_forall. intros x Hin.
    apply in_map_iff in Hin. destruct Hin as (p & <- & _).
    apply path_straddle_return_nonneg.
  - rewrite length_map. exact Hlen5.
  - apply Forall_forall. intros p Hin.
    apply in_map_iff in Hin. destruct Hin as (m0 & <- & Hm0).
    rewrite Forall_forall in Hall5. destruct (Hall5 m0 Hm0) as [_ Hr].
    apply batch_price_nonneg; [lia|exact Hr].
  - rewrite length_cumprod, length_map. lia.
  - rewrite Hl, length_map. lia.
  - exact Hs.
  - intros j Hj. apply (simulated_prices_columns 4); try assumption.
    intros ->. simpl in Hrows. lia.
Qed.

(** X16.  The script body raises nothing of its own in steps 1 to 6, in
    particular no [ZeroDivisionError]: an exception that ends it was
    raised by one of its calls to the generator, for an array of 252
    draws or for a matrix of 252 rows with 10000 or 4 columns. *)
Theorem script_body_raised (g : rng) (e : exn) :
  script_body g = Raised e ->
  let daily_vol := 0.2 / sqrt 252 in
  (exists g1, normal 0 daily_vol 252 g1 = Raised e) \/
  (exists g1, normal2d 0 daily_vol 252 10000 g1 = Raised e) \/
  (exists g1, normal2d 0 daily_vol 252 4 g1 = Raised e).
Proof.
  intros H daily_vol. revert H. unfold script_body, bind.
  rewrite straddle_pricer_mc_unfold, py_int_one_year. fold daily_vol.
  destruct (draw_paths (Z.to_nat 100) daily_vol 252 g) as [[paths g1]|e1]
    eqn:Ep.
  2:{ intros H. injection H as <-. left.
      exact (draw_paths_raised _ _ _ _ _ Ep). }
  change ((100 =? 0)%Z) with false. cbv iota.
  rewrite five_prices_unfold, py_int_one_year. fold daily_vol.
  destruct (draw_batches 5 daily_vol 252 10000 g1) as [[ms g2]|e1] eqn:Eb.
  2:{ intros H. injection H as <-. right. left.
      exact (draw_batches_raised _ _ _ _ _ _ Eb). }
  unfold simulate_asset_path, bind. rewrite py_int_one_year. fold daily_vol.
  destruct (normal 0 daily_vol 252 g2) as [[returns g3]|e1] eqn:En.
  2:{ intros H. injection H as <-. left. exists g2. exact En. }
  unfold ret. cbv beta iota. cbn [fst snd].
  destruct (normal2d 0 daily_vol 252 4 g3) as [[m g4]|e1] eqn:Em.
  - discriminate.
  - intros H. injection H as <-. right. right. exists g3. exact Em.
Qed.

End Script.

Lemma trial_draw_paths_returns (k : nat) (scale : R) (n : Z) :
  0 <= scale -> (0 <= n)%Z ->
  forall g : nat,
  exists ps g',
    draw_paths (RS := trial_source) k scale n g = Returned (ps, g').
Proof.
  intros Hs Hn. induction k as [|k IH]; intros g; simpl.
  - eexists _, _. reflexivity.
  - unfold bind. simpl. rewrite (trial_normal_returns 0 scale n g Hs Hn).
    destruct (IH (g + Z.to_nat n)%nat) as (ps & g' & Eps).
    rewrite Eps. eexists _, _. reflexivity.
Qed.

Lemma trial_script_body_returns :
  exists v g', script_body (RS := trial_source) O = Returned (v, g').
Proof.
  assert (Hdv : 0 <= 0.2 / sqrt 252) by (apply daily_vol_nonneg; lra).
  unfold script_body, bind.
  rewrite straddle_pricer_mc_unfold, py_int_one_year.
  destruct (trial_draw_paths_returns (Z.to_nat 100) (0.2 / sqrt 252) 252)
    with (g := O) as (ps & g1 & Ep); [lra|lia|].
  rewrite Ep. change ((100 =? 0)%Z) with false. cbv iota.
  rewrite five_prices_unfold, py_int_one_year.
  destruct (trial_draw_batches_returns 5 (0.2 / sqrt 252) 252 10000)
    with (g := g1) as (ms & g2 & Eb); [lra|lia|lia|].
  rewrite Eb.
  unfold simulate_asset_path, bind. rewrite py_int_one_year.
  change (@normal trial_source) with trial_normal.
  rewrite trial_normal_returns by (lra || lia).
  unfold ret. cbv beta iota. cbn [fst snd].
  change (@normal2d trial_source) with trial_normal2d.
  rewrite trial_normal2d_returns by (lra || lia).
  eexists _, _. reflexivity.
Qed.

Lemma script_body_values_witness :
  exists v g',
    script_body (RS := trial_source) O = Returned (v, g') /\
    np_nonneg (mc_avg_value v) /\
    0 <= mc_price v /\
    length (five_estimates v) = 5%nat /\
    Forall np_nonneg (five_estimates v) /\
    length (col_price (simulated_asset v)) = 252%nat /\
    length (simulated_prices v) = 252%nat /\
    Forall (fun row => length row = 4%nat) (simulated_prices v) /\
    forall j, (j < 4)%nat ->
      column j (simulated_prices v) =
        cumprod (map (fun x => 1 + x) (column j (simulated_matrix v))) /\
      column_straddle_return (column j (simulated_matrix v)) =
        Rabs (nth j (last (simulated_prices v) []) 0 - 1).
Proof.
  destruct trial_script_body_returns as (v & g' & E).
  exists v, g'. split; [exact E|].
  exact (script_body_values (RS := trial_source) O g' v E).
Defined.

Lemma script_body_raised_witness :
  let daily_vol := 0.2 / sqrt 252 in
  (exists g1,
      normal (RandomSource := refusing_source) 0 daily_vol 252 g1 =
      Raised ValueError) \/
  (exists g1,
      normal2d (RandomSource := refusing_source) 0 daily_vol 252 10000 g1 =
      Raised ValueError) \/
  (exists g1,
      normal2d (RandomSource := refusing_source) 0 daily_vol 252 4 g1 =
      Raised ValueError).
Proof.
  apply (script_body_raised (RS := refusing_source) tt ValueError).
  reflexivity.
Defined.
